(** * Verdantia backend bootstrap (backend/app.py): a shallow embedding

  The development follows the layout of [app.py]:
  - the process environment read through [os.getenv];
  - [_init_db], the Mongo client and the choice of the logical database;
  - the configuration part of [create_app] and the CORS origins;
  - the POSIX file system calls used at startup and by the file routes;
  - the handlers [serve_upload], [serve_cert], [health],
    [serve_spa_index], [spa_root], [spa_catch_all];
  - the URL map that dispatches a request to one of them.

  Python strings are [string]; the environment is a finite map from
  names to values; exceptions are values of an error type carried by the
  [Raise] outcome of a computation. *)

From Stdlib Require Import Ascii String ZArith Lia Bool.
From stdpp Require Import gmap strings list fin_maps option.
From Equations Require Import Equations.



(** ** Python string primitives used by [app.py] and by the library code
     it calls *)

Module Py.

(** [s.startswith(p)] *)
Fixpoint startswith (p s : string) : bool :=
  match p, s with
  | EmptyString, _ => true
  | String a p', String b s' => if Ascii.eqb a b then startswith p' s' else false
  | String _ _, EmptyString => false
  end.

(** [c in s] for a one-character [c] *)
Fixpoint contains (c : ascii) (s : string) : bool :=
  match s with
  | EmptyString => false
  | String b s' => if Ascii.eqb c b then true else contains c s'
  end.

(** [s.split(sep)] for a one-character separator: never the empty list,
    [''.split(',') == ['']]. *)
Fixpoint split (sep : ascii) (s : string) : list string :=
  match s with
  | EmptyString => [EmptyString]
  | String c s' =>
      if Ascii.eqb c sep then EmptyString :: split sep s'
      else match split sep s' with
           | x :: xs => String c x :: xs
           | [] => [String c EmptyString]
           end
  end.

(** [sep.join(l)] *)
Fixpoint join (sep : string) (l : list string) : string :=
  match l with
  | [] => EmptyString
  | [x] => x
  | x :: xs => x +:+ sep +:+ join sep xs
  end.

(** [s.partition(sep)] for a one-character separator: the part before
    the first occurrence, whether the separator was found, the rest. *)
Fixpoint partition (sep : ascii) (s : string) : string * bool * string :=
  match s with
  | EmptyString => (EmptyString, false, EmptyString)
  | String c s' =>
      if Ascii.eqb c sep then (EmptyString, true, s')
      else let '(a, f, b) := partition sep s' in (String c a, f, b)
  end.

(** ASCII [str.lower()] on one character *)
Definition lower_ascii (c : ascii) : ascii :=
  let n := nat_of_ascii c in
  if (65 <=? n)%nat && (n <=? 90)%nat then ascii_of_nat (n + 32) else c.

Fixpoint lower (s : string) : string :=
  match s with
  | EmptyString => EmptyString
  | String c s' => String (lower_ascii c) (lower s')
  end.

(** Truth value of a string: [if s:] *)
Definition truthy (s : string) : bool :=
  match s with EmptyString => false | _ => true end.

(** The white space [int] skips around a number: the ASCII characters
    tab, line feed, vertical tab, form feed, carriage return and space. *)
Definition is_space (c : ascii) : bool :=
  let n := nat_of_ascii c in
  ((9 <=? n)%nat && (n <=? 13)%nat) || (n =? 32)%nat.

Fixpoint lstrip (s : string) : string :=
  match s with
  | String c s' => if is_space c then lstrip s' else s
  | EmptyString => EmptyString
  end.

Fixpoint rstrip (s : string) : string :=
  match s with
  | EmptyString => EmptyString
  | String c s' =>
      match rstrip s' with
      | EmptyString => if is_space c then EmptyString else String c EmptyString
      | r => String c r
      end
  end.

Definition strip (s : string) : string := lstrip (rstrip s).

Definition is_digit (c : ascii) : bool :=
  let n := nat_of_ascii c in (48 <=? n)%nat && (n <=? 57)%nat.

Definition digit_val (c : ascii) : Z := Z.of_nat (nat_of_ascii c) - 48.

(** Digits of a decimal literal, left to right; [us] tells whether the
    previous character was an underscore (a digit must follow it). *)
Fixpoint digits (acc : Z) (us : bool) (s : string) : option Z :=
  match s with
  | EmptyString => if us then None else Some acc
  | String c s' =>
      if is_digit c then digits (10 * acc + digit_val c) false s'
      else if Ascii.eqb c "_" then (if us then None else digits acc true s')
      else None
  end.

Definition unsigned (s : string) : option Z :=
  match s with
  | String c _ => if is_digit c then digits 0 false s else None
  | EmptyString => None
  end.

(** [int(s)] for a [str] argument, base 10, ASCII digits: surrounding
    white space, an optional sign, digits with single underscores between
    them.  [None] stands for [ValueError].  (Digits and white space
    outside ASCII, and the limit on the number of digits, are not part of
    this model.) *)
Definition int (s : string) : option Z :=
  match strip s with
  | String "+" r => unsigned r
  | String "-" r => Z.opp <$> unsigned r
  | r => unsigned r
  end.

(** The first [n] characters of [s]. *)
Fixpoint take (n : nat) (s : string) : string :=
  match n, s with
  | S k, String c r => String c (take k r)
  | _, _ => EmptyString
  end.

Definition hex_digit (n : nat) : ascii :=
  ascii_of_nat (if (n <? 10)%nat then 48 + n else 87 + n).

(** [repr(s)]: the text in single quotes, or in double quotes when it
    holds a single quote and no double quote; the backslash, the quote
    in use and the control characters are escaped.  (Characters outside
    ASCII are taken to be printable.) *)
Definition repr_char (q c : ascii) : string :=
  let n := nat_of_ascii c in
  if (n =? 92)%nat then String c (String c EmptyString)
  else if Ascii.eqb c q then String (ascii_of_nat 92) (String c EmptyString)
  else if (n =? 9)%nat then String (ascii_of_nat 92) "t"
  else if (n =? 10)%nat then String (ascii_of_nat 92) "n"
  else if (n =? 13)%nat then String (ascii_of_nat 92) "r"
  else if (n <? 32)%nat || (n =? 127)%nat
  then String (ascii_of_nat 92)
         (String "x" (String (hex_digit (n / 16)) (String (hex_digit (n mod 16)) EmptyString)))
  else String c EmptyString.

Fixpoint repr_body (q : ascii) (s : string) : string :=
  match s with
  | EmptyString => EmptyString
  | String c r => repr_char q c +:+ repr_body q r
  end.

Definition repr (s : string) : string :=
  let q := if contains "'" s && negb (contains (ascii_of_nat 34) s)
           then ascii_of_nat 34 else "'"%char in
  String q (repr_body q s +:+ String q EmptyString).

End Py.

(** ** The process environment *)

(** [os.environ] after [load_dotenv()] has run. *)
Abbreviation environ := (gmap string string).

Module os.

(** [os.getenv(key)]: [None] when the variable does not exist. *)
Definition getenv (env : environ) (key : string) : option string := env !! key.

(** [os.getenv(key, default)] *)
Definition getenv_default (env : environ) (key default : string) : string :=
  match env !! key with
  | Some v => v
  | None => default
  end.

End os.

(** ** Exceptions and outcomes *)

(** The exception classes that can arise in the modelled code: the
    [pymongo.errors] hierarchy, [bson.errors], and the built-in classes
    raised by [int], by the [os] calls and by attribute or type errors. *)
Inductive exc_class : Type :=
| Exception
| PyMongoError | ProtocolError | ConnectionFailure | AutoReconnect
| NetworkTimeout | NotPrimaryError | ServerSelectionTimeoutError
| ConfigurationError | InvalidURI | OperationFailure | ExecutionTimeout
| WriteError | InvalidOperation | InvalidName | DocumentTooLarge
| BSONError | InvalidDocument
| TypeError | ValueError
| OSError | FileExistsError | FileNotFoundError | NotADirectoryError.

#[global] Instance exc_class_eq_dec : EqDecision exc_class.
Proof. solve_decision. Defined.

(** The direct base class of each class ([None] for [Exception]). *)
Definition base (c : exc_class) : option exc_class :=
  match c with
  | Exception => None
  | PyMongoError => Some Exception
  | ProtocolError | ConnectionFailure | ConfigurationError
  | OperationFailure | InvalidOperation | InvalidName => Some PyMongoError
  | AutoReconnect => Some ConnectionFailure
  | NetworkTimeout | NotPrimaryError | ServerSelectionTimeoutError => Some AutoReconnect
  | InvalidURI => Some ConfigurationError
  | ExecutionTimeout | WriteError => Some OperationFailure
  | DocumentTooLarge => Some InvalidDocument
  | BSONError => Some Exception
  | InvalidDocument => Some BSONError
  | TypeError | ValueError | OSError => Some Exception
  | FileExistsError | FileNotFoundError | NotADirectoryError => Some OSError
  end.

(** [issubclass(c, d)], by walking up the bases; the hierarchy has depth
    below 8. *)
Fixpoint issubclass_fuel (n : nat) (c d : exc_class) : bool :=
  if decide (c = d) then true
  else match n, base c with
       | S n', Some b => issubclass_fuel n' b d
       | _, _ => false
       end.

Definition issubclass (c d : exc_class) : bool := issubclass_fuel 8 c d.

(** A raised exception: its class and the text [str(e)] returns. *)
Record exc : Type := mk_exc { exc_cls : exc_class; exc_str : string }.

(** [except d as e] catches [e] *)
Definition isinstance (e : exc) (d : exc_class) : bool := issubclass (exc_cls e) d.

(** The outcome of a Python computation: a value or a raised exception. *)
Inductive result (A : Type) : Type :=
| Ok (a : A)
| Raise (e : exc).
Arguments Ok {A} a.
Arguments Raise {A} e.

Definition bind {A B : Type} (m : result A) (k : A -> result B) : result B :=
  match m with
  | Ok a => k a
  | Raise e => Raise e
  end.

Notation "'do' x <- m ; k" := (bind m (fun x => k))
  (at level 10, x pattern, m at level 100, k at level 200).

(** ** The Mongo client ([pymongo]) as far as [_init_db] uses it *)

Module pymongo.

Definition SCHEME : string := "mongodb://".
Definition SRV_SCHEME : string := "mongodb+srv://".

Definition hex_val (c : ascii) : option nat :=
  let n := nat_of_ascii c in
  if (48 <=? n)%nat && (n <=? 57)%nat then Some (n - 48)%nat
  else if (65 <=? n)%nat && (n <=? 70)%nat then Some (n - 55)%nat
  else if (97 <=? n)%nat && (n <=? 102)%nat then Some (n - 87)%nat
  else None.

(** [urllib.parse.unquote_plus] on the bytes of the string: [+] becomes a
    space and [%XX] the byte [XX]; [skip] counts the characters of an
    escape still to be dropped. *)
Fixpoint unquote_plus_from (skip : nat) (s : string) : string :=
  match s with
  | EmptyString => EmptyString
  | String c r =>
      match skip with
      | S k => unquote_plus_from k r
      | O =>
          if Ascii.eqb c "%" then
            match r with
            | String h (String l _) =>
                match hex_val h, hex_val l with
                | Some a, Some b => String (ascii_of_nat (16 * a + b)) (unquote_plus_from 2 r)
                | _, _ => String c (unquote_plus_from 0 r)
                end
            | _ => String c (unquote_plus_from 0 r)
            end
          else String (if Ascii.eqb c "+" then " " else c) (unquote_plus_from 0 r)
      end
  end.

Definition unquote_plus (s : string) : string := unquote_plus_from 0 s.

(** [_BAD_DB_CHARS]: slash, space, double quote, dollar. *)
Definition bad_db_char (c : ascii) : bool :=
  Ascii.eqb c "/" || Ascii.eqb c " " || Ascii.eqb c (ascii_of_nat 34) || Ascii.eqb c "$".

Fixpoint any_char (p : ascii -> bool) (s : string) : bool :=
  match s with
  | EmptyString => false
  | String c r => p c || any_char p r
  end.

Fixpoint drop_chars (n : nat) (s : string) : string :=
  match n, s with
  | S k, String _ r => drop_chars k r
  | _, _ => s
  end.

(** The database part of [uri_parser.parse_uri]: the text between the
    first slash after the host list and the question mark, unquoted, cut
    at its first dot (what follows names a collection), refused when it
    holds a bad character.  The checks of the host list, the user
    information and the options, made by the same function, are not
    part of this model. *)
Definition parse_uri (uri : string) : result (option string) :=
  do scheme_free <-
    (if Py.startswith SCHEME uri then Ok (drop_chars 10 uri)
     else if Py.startswith SRV_SCHEME uri then Ok (drop_chars 14 uri)
     else Raise (mk_exc InvalidURI "Invalid URI scheme: URI must begin with 'mongodb://' or 'mongodb+srv://'"));
  if negb (Py.truthy scheme_free)
  then Raise (mk_exc InvalidURI "Must provide at least one hostname or IP.")
  else
    let '(host_part0, _, path_part0) := Py.partition "/" scheme_free in
    let '(host_part, path_part) :=
      if Py.truthy host_part0 then (host_part0, path_part0) else (path_part0, EmptyString) in
    if negb (Py.truthy path_part) && Py.contains "?" host_part
    then Raise (mk_exc InvalidURI "A '/' is required between the host list and any options.")
    else
      let '(dbase0, _, _) := Py.partition "?" path_part in
      if Py.truthy dbase0 then
        let dbase1 := unquote_plus dbase0 in
        let '(dbase, _, _) := Py.partition "." dbase1 in
        if any_char bad_db_char dbase
        then Raise (mk_exc InvalidURI
                      ("Bad database name " +:+ String (ascii_of_nat 34) dbase
                       +:+ String (ascii_of_nat 34) EmptyString))
        else Ok (Some dbase)
      else Ok None.

(** A [MongoClient]: the [host] argument it was built from and the
    default database name kept from it ([res["database"] or None]: an
    empty name is dropped).  An argument that holds a slash is read as a
    URI; any other is a list of hosts, which names no database.  Building
    the client opens no connection. *)
Record Client : Type := mk_client {
  client_uri : string;
  default_database_name : option string
}.

Definition MongoClient (uri : string) : result Client :=
  if Py.contains "/" uri then
    do db <- parse_uri uri;
    Ok (mk_client uri (match db with
                       | Some n => if Py.truthy n then Some n else None
                       | None => None
                       end))
  else Ok (mk_client uri None).

(** A [Database] object: the client it belongs to and its name. *)
Record Database : Type := mk_database {
  db_client : Client;
  db_name : string
}.

(** [database._check_name]: the characters a database name must not
    hold, in the order in which they are looked for (space, dot, dollar,
    slash, backslash, NUL, double quote). *)
Definition invalid_name_chars : list ascii :=
  [" "; "."; "$"; "/"; ascii_of_nat 92; zero; ascii_of_nat 34]%char.

Fixpoint first_invalid (chars : list ascii) (name : string) : option ascii :=
  match chars with
  | [] => None
  | c :: rest => if Py.contains c name then Some c else first_invalid rest name
  end.

Definition check_name (name : string) : result unit :=
  if negb (Py.truthy name)
  then Raise (mk_exc InvalidName "database name cannot be the empty string")
  else match first_invalid invalid_name_chars name with
       | Some c =>
           Raise (mk_exc InvalidName
                    ("database names cannot contain the character "
                     +:+ Py.repr (String c EmptyString)))
       | None => Ok tt
       end.

(** [Database(client, name)], also reached through [client[name]] *)
Definition new_database (client : Client) (name : string) : result Database :=
  do _ <- (if String.eqb name "$external" then Ok tt else check_name name);
  Ok (mk_database client name).

Definition getitem (client : Client) (name : string) : result Database :=
  new_database client name.

(** [client.get_default_database()] with no [default] argument: it raises
    [ConfigurationError] when the URI named no database; it never returns
    [None]. *)
Definition get_default_database (client : Client) : result (option Database) :=
  match default_database_name client with
  | None => Raise (mk_exc ConfigurationError "No default database name defined or provided.")
  | Some name => do d <- new_database client name; Ok (Some d)
  end.

End pymongo.

(** ** [_init_db] *)

Definition _init_db (env : environ) : result (pymongo.Client * pymongo.Database) :=
  let mongo_uri := os.getenv_default env "MONGO_URI" "mongodb://localhost:27017/verdantia" in
  let mongo_db := os.getenv env "MONGO_DB" in
  do client <- pymongo.MongoClient mongo_uri;
  let from_uri :=
    do db <- pymongo.get_default_database client;
    match db with
    | None => pymongo.getitem client "verdantia"
    | Some d => Ok d
    end in
  do db <-
    match mongo_db with
    | Some name => if Py.truthy name then pymongo.getitem client name else from_uri
    | None => from_uri
    end;
  Ok (client, db).

(** ** [posixpath] *)

Module posixpath.

Fixpoint endswith_slash (s : string) : bool :=
  match s with
  | EmptyString => false
  | String c EmptyString => Ascii.eqb c "/"
  | String _ r => endswith_slash r
  end.

(** [isabs(s)] *)
Definition isabs (s : string) : bool := Py.startswith "/" s.

(** One step of the loop of [join]: [path] extended by the part [b]. *)
Definition join2 (path b : string) : string :=
  if Py.startswith "/" b then b
  else if negb (Py.truthy path) || endswith_slash path then path +:+ b
  else path +:+ "/" +:+ b.

(** [join(a, *p)] *)
Definition join (a : string) (p : list string) : string := fold_left join2 p a.

(** [p[:i], p[i:]] for [i = p.rfind('/') + 1] *)
Fixpoint cut_last_slash (p : string) : string * string :=
  match p with
  | EmptyString => (EmptyString, EmptyString)
  | String c r =>
      let '(h, t) := cut_last_slash r in
      match h with
      | EmptyString => if Ascii.eqb c "/" then (String c EmptyString, r) else (EmptyString, String c t)
      | _ => (String c h, t)
      end
  end.

(** [head == '/' * len(head)] *)
Fixpoint all_slashes (s : string) : bool :=
  match s with
  | EmptyString => true
  | String c r => Ascii.eqb c "/" && all_slashes r
  end.

(** [head.rstrip('/')] *)
Fixpoint rstrip_slash (s : string) : string :=
  match s with
  | EmptyString => EmptyString
  | String c r =>
      match rstrip_slash r with
      | EmptyString => if Ascii.eqb c "/" then EmptyString else String c EmptyString
      | r' => String c r'
      end
  end.

(** [split(p)]: head and tail around the last slash *)
Definition split (p : string) : string * string :=
  let '(head, tail) := cut_last_slash p in
  if Py.truthy head && negb (all_slashes head) then (rstrip_slash head, tail)
  else (head, tail).

(** The loop of [normpath]; [new_comps] is kept with its last element
    first, so that [append] and [pop] work at the head. *)
Fixpoint normpath_loop (initial_slashes : nat) (new_comps : list string)
    (comps : list string) : list string :=
  match comps with
  | [] => new_comps
  | comp :: rest =>
      if String.eqb comp "" || String.eqb comp "." then
        normpath_loop initial_slashes new_comps rest
      else if negb (String.eqb comp "..")
              || ((initial_slashes =? 0)%nat && match new_comps with [] => true | _ => false end)
              || match new_comps with last :: _ => String.eqb last ".." | [] => false end
      then normpath_loop initial_slashes (comp :: new_comps) rest
      else match new_comps with
           | _ :: popped => normpath_loop initial_slashes popped rest
           | [] => normpath_loop initial_slashes new_comps rest
           end
  end.

Fixpoint slashes (n : nat) : string :=
  match n with
  | O => EmptyString
  | S k => String "/" (slashes k)
  end.

(** [normpath(path)] *)
Definition normpath (path : string) : string :=
  if negb (Py.truthy path) then "."
  else
    let initial_slashes :=
      if Py.startswith "/" path then
        if Py.startswith "//" path && negb (Py.startswith "///" path) then 2%nat else 1%nat
      else 0%nat in
    let comps := rev (normpath_loop initial_slashes [] (Py.split "/" path)) in
    let path' := slashes initial_slashes +:+ Py.join "/" comps in
    if Py.truthy path' then path' else ".".

End posixpath.

(** ** Configuration read by [create_app] and by the [__main__] block *)

(** [os.getcwd()] for a process whose working directory is the absolute
    location [cwd], a list of names from the root. *)
Definition getcwd (cwd : list string) : string := String "/" (Py.join "/" cwd).

(** The entries [create_app] stores in [app.config]. *)
Record Config : Type := mk_config {
  JWT_SECRET_KEY : string;
  UPLOAD_DIR : string;
  CERT_DIR : string;
  FRONTEND_DIR : string
}.

Definition app_config (env : environ) (cwd : list string) : Config :=
  {| JWT_SECRET_KEY := os.getenv_default env "JWT_SECRET_KEY" "dev-secret-change-me";
     UPLOAD_DIR := os.getenv_default env "UPLOAD_DIR" "uploads";
     CERT_DIR := os.getenv_default env "CERT_DIR" "certs";
     FRONTEND_DIR := os.getenv_default env "FRONTEND_DIR"
                       (posixpath.join (getcwd cwd) ["frontend"; "dist"]) |}.

(** The [origins] argument handed to [CORS]: the string ["*"] or a list. *)
Inductive Origins : Type :=
| AllOrigins
| OriginList (l : list string).

Definition origins_of (cors_origins : string) : Origins :=
  if negb (String.eqb cors_origins "*") then OriginList (Py.split "," cors_origins)
  else AllOrigins.

Definition cors_origins (env : environ) : Origins :=
  origins_of (os.getenv_default env "CORS_ORIGINS" "*").

(** The arguments of [app.run] in the [__main__] block: [port] and
    [debug].  [os.getenv("PORT", 5000)] is the text of the variable or the
    number 5000; [int] of a text can raise [ValueError], whose message
    shows the first 200 characters of [repr] of the text. *)
Definition port_of_text (v : string) : result Z :=
  match Py.int v with
  | Some n => Ok n
  | None => Raise (mk_exc ValueError ("invalid literal for int() with base 10: "
                                      +:+ Py.take 200 (Py.repr v)))
  end.

Definition run_port (env : environ) : result Z :=
  match os.getenv env "PORT" with
  | Some v => port_of_text v
  | None => Ok 5000%Z
  end.

Definition debug_of_text (v : string) : bool := String.eqb (Py.lower v) "true".

Definition run_debug (env : environ) : bool :=
  debug_of_text (os.getenv_default env "FLASK_DEBUG" "false").

(** ** Responses *)

Inductive json : Type :=
| JBool (b : bool)
| JStr (s : string).

(** What a view function hands back to Flask:
    - [Json status body]: [jsonify(...)], alone (status 200) or in a pair
      with a status;
    - [FileResponse path content as_attachment]: the result of
      [send_file], status 200, with the bytes of the file at [path];
    - [HttpError status]: a [werkzeug] HTTP exception such as [NotFound],
      which Flask turns into the response with that status. *)
Inductive Response : Type :=
| Json (status : nat) (body : list (string * json))
| FileResponse (path : string) (content : string) (as_attachment : bool)
| HttpError (status : nat).


(** ** The [/health] view

    [ping] is the outcome of [app.db.command("ping")]: it returns or it
    raises. *)
Definition health (ping : result unit) : result Response :=
  match ping with
  | Ok _ => Ok (Json 200 [("ok", JBool true); ("db", JStr "up")])
  | Raise e =>
      if isinstance e PyMongoError
      then Ok (Json 500 [("ok", JBool false); ("db", JStr "down"); ("error", JStr (exc_str e))])
      else Raise e
  end.

(** ** The file system

    A file system is a finite map from absolute locations (the list of
    names from the root) to nodes; the root is a directory.  There are no
    symbolic links and no permissions in this model.  Path names are
    resolved the way the kernel does it: one component at a time, [..]
    moving to the parent of the current directory. *)

Inductive node : Type :=
| File (content : string)
| Dir.

Abbreviation filesystem := (gmap (list string) node).

Module fsys.

Definition ENOENT : exc := mk_exc FileNotFoundError "No such file or directory".
Definition ENOTDIR : exc := mk_exc NotADirectoryError "Not a directory".
Definition EEXIST : exc := mk_exc FileExistsError "File exists".

Definition node_at (fs : filesystem) (loc : list string) : option node :=
  match loc with
  | [] => Some Dir
  | _ => fs !! loc
  end.

Definition parent (loc : list string) : list string := removelast loc.

(** Follow the components [comps] from the location [loc]. *)
Fixpoint walk (fs : filesystem) (loc : list string) (comps : list string)
    : result (list string) :=
  match comps with
  | [] => Ok loc
  | c :: cs =>
      match node_at fs loc with
      | Some Dir =>
          if String.eqb c "" || String.eqb c "." then walk fs loc cs
          else if String.eqb c ".." then walk fs (parent loc) cs
          else match fs !! (loc ++ [c]) with
               | Some _ => walk fs (loc ++ [c]) cs
               | None => Raise ENOENT
               end
      | Some (File _) => Raise ENOTDIR
      | None => Raise ENOENT
      end
  end.

(** Where the resolution of [path] starts. *)
Definition start (cwd : list string) (path : string) : list string :=
  if posixpath.isabs path then [] else cwd.

(** [os.stat(path)], reduced to the node found. *)
Definition stat (fs : filesystem) (cwd : list string) (path : string) : result node :=
  if negb (Py.truthy path) then Raise ENOENT
  else
    do loc <- walk fs (start cwd path) (Py.split "/" path);
    match node_at fs loc with
    | Some n => Ok n
    | None => Raise ENOENT
    end.

(** [os.path.exists], [os.path.isfile], [os.path.isdir]: a failing
    [stat] gives [False]. *)
Definition exists_ (fs : filesystem) (cwd : list string) (path : string) : bool :=
  match stat fs cwd path with
  | Ok _ => true
  | Raise _ => false
  end.

Definition isfile (fs : filesystem) (cwd : list string) (path : string) : bool :=
  match stat fs cwd path with
  | Ok (File _) => true
  | _ => false
  end.

Definition isdir (fs : filesystem) (cwd : list string) (path : string) : bool :=
  match stat fs cwd path with
  | Ok Dir => true
  | _ => false
  end.

Fixpoint drop_empty (comps : list string) : list string :=
  match comps with
  | c :: cs => if String.eqb c "" then drop_empty cs else comps
  | [] => []
  end.

(** [os.mkdir(path)]: trailing slashes are ignored, every component but
    the last must lead through existing directories, and the last one
    must be a new name there.  The file system is returned unchanged
    together with the error when the call fails. *)
Definition mkdir (fs : filesystem) (cwd : list string) (path : string) : result filesystem :=
  if negb (Py.truthy path) then Raise ENOENT
  else
    match drop_empty (rev (Py.split "/" path)) with
    | [] => Raise EEXIST
    | last :: rinit =>
        do ploc <- walk fs (start cwd path) (rev rinit);
        match node_at fs ploc with
        | Some Dir =>
            if String.eqb last "." || String.eqb last ".." then Raise EEXIST
            else match fs !! (ploc ++ [last]) with
                 | Some _ => Raise EEXIST
                 | None => Ok (<[ploc ++ [last] := Dir]> fs)
                 end
        | Some (File _) => Raise ENOTDIR
        | None => Raise ENOENT
        end
    end.

(** The first lines of [os.makedirs]:
    [head, tail = path.split(name)] and, if [tail] is empty,
    [head, tail = path.split(head)]. *)
Definition makedirs_parts (name : string) : string * string :=
  let '(head, tail) := posixpath.split name in
  if negb (Py.truthy tail) then posixpath.split head else (head, tail).

(** [head and tail and not path.exists(head)] *)
Definition needs_parent (fs : filesystem) (cwd : list string) (name : string) : bool :=
  let '(head, tail) := makedirs_parts name in
  Py.truthy head && Py.truthy tail && negb (exists_ fs cwd head).

(** The last statement of [os.makedirs(name, exist_ok=True)]:
    [mkdir(name)], whose [OSError] is dropped when [name] is a directory. *)
Definition makedirs_leaf (fs : filesystem) (cwd : list string) (name : string)
    : result unit * filesystem :=
  match mkdir fs cwd name with
  | Ok fs' => (Ok tt, fs')
  | Raise e =>
      if isinstance e OSError then
        if negb (isdir fs cwd name) then (Raise e, fs) else (Ok tt, fs)
      else (Raise e, fs)
  end.

Definition inspect {A : Type} (a : A) : {b : A | a = b} := exist _ a eq_refl.

(** [os.makedirs(name, exist_ok=True)]: the outcome and the file system
    left behind (directories made before a failure stay).  The recursive
    call is on [head], which is shorter than [name]. *)
Equations? makedirs (fs : filesystem) (cwd : list string) (name : string)
    : result unit * filesystem by wf (String.length name) lt :=
makedirs fs cwd name with inspect (needs_parent fs cwd name) := {
  | exist _ true Hneeds =>
      let head := fst (makedirs_parts name) in
      let tail := snd (makedirs_parts name) in
      let '(r, fs1) := makedirs fs cwd head in
      match r with
      | Raise e =>
          if isinstance e FileExistsError then
            if String.eqb tail "." then (Ok tt, fs1) else makedirs_leaf fs1 cwd name
          else (Raise e, fs1)
      | Ok _ =>
          if String.eqb tail "." then (Ok tt, fs1) else makedirs_leaf fs1 cwd name
      end
  | exist _ false _ => makedirs_leaf fs cwd name }.
Proof.
  assert (Hcut : forall p, String.length (fst (posixpath.cut_last_slash p))
                           + String.length (snd (posixpath.cut_last_slash p))
                           = String.length p).
  { induction p as [|c r IH]; simpl; [reflexivity|].
    destruct (posixpath.cut_last_slash r) as [h t]; simpl in *.
    destruct h; simpl in *; [destruct (Ascii.eqb c "/"); simpl; lia | lia]. }
  assert (Hstrip : forall s, String.length (posixpath.rstrip_slash s) <= String.length s).
  { induction s as [|c r IH]; simpl; [lia|].
    destruct (posixpath.rstrip_slash r); simpl in *;
      [destruct (Ascii.eqb c "/"); simpl; lia | lia]. }
  assert (Hsplit : forall p, String.length (fst (posixpath.split p))
                             + String.length (snd (posixpath.split p))
                             <= String.length p).
  { intros p. unfold posixpath.split. specialize (Hcut p).
    destruct (posixpath.cut_last_slash p) as [h t]; simpl in *.
    destruct (Py.truthy h && negb (posixpath.all_slashes h)); simpl;
      [specialize (Hstrip h); lia | lia]. }
  assert (Hlen : forall s, Py.truthy s = true -> 0 < String.length s).
  { intros [|? ?]; simpl; [discriminate | lia]. }
  unfold needs_parent, makedirs_parts in *.
  pose proof (Hsplit name) as H1.
  destruct (posixpath.split name) as [h1 t1]; simpl in *.
  destruct (Py.truthy t1) eqn:Ht1; simpl in *.
  - apply Hlen in Ht1. subst head. lia.
  - pose proof (Hsplit h1) as H2.
    destruct (posixpath.split h1) as [h2 t2]; simpl in *.
    apply andb_prop in Hneeds as [Hneeds _]. apply andb_prop in Hneeds as [_ Ht2].
    apply Hlen in Ht2. subst head. lia.
Qed.

End fsys.

(** What [makedirs] does once the recursive call on [head] has given
    [parent]: [FileExistsError] is dropped, [tail == "."] returns, and
    otherwise the directory itself is made. *)
Definition after_parent (cwd : list string) (name tail : string)
    (parent : result unit * filesystem) : result unit * filesystem :=
  match parent with
  | (Ok _, fs1) =>
      if String.eqb tail "." then (Ok tt, fs1) else fsys.makedirs_leaf fs1 cwd name
  | (Raise e, fs1) =>
      if isinstance e FileExistsError then
        if String.eqb tail "." then (Ok tt, fs1) else fsys.makedirs_leaf fs1 cwd name
      else (Raise e, fs1)
  end.

(** The file system [fs] with a directory at every step of the chain of
    names [names] below the location [base]. *)
Fixpoint add_dirs (fs : filesystem) (base : list string) (names : list string)
    : filesystem :=
  match names with
  | [] => fs
  | c :: rest => add_dirs (<[base ++ [c] := Dir]> fs) (base ++ [c]) rest
  end.

(** Nothing but directories stands in the way of that chain: every
    step is free or a directory already. *)
Fixpoint clear_way (fs : filesystem) (base : list string) (names : list string) : Prop :=
  match names with
  | [] => True
  | c :: rest =>
      (fs !! (base ++ [c]) = None \/ fs !! (base ++ [c]) = Some Dir)
      /\ clear_way fs (base ++ [c]) rest
  end.

(** A path made of the names [names], from the root when [absolute] and
    from the working directory otherwise, and the location it starts
    from. *)
Definition chain_path (absolute : bool) (names : list string) : string :=
  (if absolute then "/" else "") +:+ Py.join "/" names.

Definition chain_origin (cwd : list string) (absolute : bool) : list string :=
  if absolute then [] else cwd.

(** ** [werkzeug]: [safe_join] and [send_from_directory] *)

Module werkzeug.

(** [werkzeug.security.safe_join(directory, filename)] on a POSIX host
    (no alternative separators): [None] when the normalised file name
    would leave [directory]. *)
Definition safe_join (directory filename : string) : option string :=
  let directory := if negb (Py.truthy directory) then "." else directory in
  let filename :=
    if negb (String.eqb filename "") then posixpath.normpath filename else filename in
  if posixpath.isabs filename
     || Py.startswith "/" filename
     || String.eqb filename ".."
     || Py.startswith "../" filename
  then None
  else Some (posixpath.join directory [filename]).

(** [flask.send_from_directory(directory, path, as_attachment=...)]:
    Flask passes [app.root_path] as [_root_path], and [werkzeug] joins it
    in front of the safely joined path, raises [NotFound] unless the
    result is a regular file, and sends that file.  Conditional and range
    request headers are not part of this model. *)
Definition send_from_directory (fs : filesystem) (cwd : list string) (root_path : string)
    (directory path : string) (as_attachment : bool) : Response :=
  match safe_join directory path with
  | None => HttpError 404
  | Some joined =>
      let path_str := posixpath.join root_path [joined] in
      match fsys.stat fs cwd path_str with
      | Ok (File content) => FileResponse path_str content as_attachment
      | _ => HttpError 404
      end
  end.

End werkzeug.

(** ** The application object built by [create_app]

    [root_path] is Flask's [app.root_path], the absolute path of the
    directory that holds [app.py]. *)

Record App : Type := mk_app {
  config : Config;
  origins : Origins;
  root_path : string;
  db_client : pymongo.Client;
  db : pymongo.Database
}.

(** The two [os.makedirs(..., exist_ok=True)] calls of [create_app], in
    order; the second one is not reached when the first one raises. *)
Definition ensure_dirs (cfg : Config) (fs : filesystem) (cwd : list string)
    : result unit * filesystem :=
  let '(r, fs1) := fsys.makedirs fs cwd (UPLOAD_DIR cfg) in
  match r with
  | Raise e => (Raise e, fs1)
  | Ok _ => fsys.makedirs fs1 cwd (CERT_DIR cfg)
  end.

(** [create_app()], up to the registration of the routes: [root] is the
    directory of [app.py], which Flask keeps as [app.root_path]. *)
Definition create_app (env : environ) (cwd : list string) (root : string)
    (fs : filesystem) : result App * filesystem :=
  let cfg := app_config env cwd in
  let cors := cors_origins env in
  let '(r, fs1) := ensure_dirs cfg fs cwd in
  match r with
  | Raise e => (Raise e, fs1)
  | Ok _ =>
      match _init_db env with
      | Raise e => (Raise e, fs1)
      | Ok (client, database) => (Ok (mk_app cfg cors root client database), fs1)
      end
  end.

(** ** The views that serve files *)

Section Views.

Variable app : App.
Variable fs : filesystem.
Variable cwd : list string.

Definition serve_upload (filename : string) : Response :=
  werkzeug.send_from_directory fs cwd (root_path app) (UPLOAD_DIR (config app)) filename false.

Definition serve_cert (filename : string) : Response :=
  werkzeug.send_from_directory fs cwd (root_path app) (CERT_DIR (config app)) filename false.

Definition serve_spa_index : Response :=
  let index_path := posixpath.join (FRONTEND_DIR (config app)) ["index.html"] in
  if fsys.exists_ fs cwd index_path
  then werkzeug.send_from_directory fs cwd (root_path app) (FRONTEND_DIR (config app)) "index.html" false
  else Json 501 [("error", JStr "frontend_not_built")].

Definition spa_root : Response := serve_spa_index.

Definition spa_catch_all (path : string) : Response :=
  let full := posixpath.join (FRONTEND_DIR (config app)) [path] in
  if fsys.isfile fs cwd full
  then werkzeug.send_from_directory fs cwd (root_path app) (FRONTEND_DIR (config app)) path false
  else serve_spa_index.

End Views.

(** ** The URL map

    [create_app] registers, in this order, the rules of the four
    blueprints (under [/api/auth] for the first and [/api] for the other
    three) and then [/uploads/<path:filename>], [/certs/<path:filename>],
    [/health], [/] and [/<path:path>].  The blueprints are not part of
    this file; their rules are a parameter of the model. *)

Inductive Method : Type := GET | HEAD | OPTIONS | POST | PUT | DELETE | PATCH.

#[global] Instance Method_eq_dec : EqDecision Method.
Proof. solve_decision. Defined.

Record Request : Type := mk_request { req_method : Method; req_path : string }.

(** A rule of a blueprint: its methods, a test on the part of the path
    that follows the blueprint's prefix (empty, or beginning with the
    slash that joins prefix and rule), and the name of its view. *)
Record FeatureRule : Type := mk_feature_rule {
  fr_methods : list Method;
  fr_matches : string -> bool;
  fr_view : string
}.

(** A blueprint as registered: its name, its [url_prefix], its rules. *)
Record Blueprint : Type := mk_blueprint {
  bp_name : string;
  bp_prefix : string;
  bp_rules : list FeatureRule
}.

(** Where a request ends up. *)
Inductive Target : Type :=
| ToFeature (blueprint view : string)
| ToServeUpload (filename : string)
| ToServeCert (filename : string)
| ToHealth
| ToSpaRoot
| ToSpaCatchAll (path : string)
| MethodNotAllowed
| NoRule.

(** [s] without the prefix [p], when [s] starts with [p] *)
Fixpoint strip_prefix (p s : string) : option string :=
  match p, s with
  | EmptyString, _ => Some s
  | String a p', String b s' => if Ascii.eqb a b then strip_prefix p' s' else None
  | String _ _, EmptyString => None
  end.

(** The [path] converter: a non-empty text that does not begin with a
    slash. *)
Definition path_converter (s : string) : bool :=
  match s with
  | EmptyString => false
  | String c _ => negb (Ascii.eqb c "/")
  end.

(** A rule of the map: its methods and, for a path it matches, the
    target with the converted argument. *)
Record Rule : Type := mk_rule {
  rule_methods : list Method;
  rule_match : string -> option Target
}.

Definition with_path_argument (prefix : string) (target : string -> Target)
    (path : string) : option Target :=
  match strip_prefix prefix path with
  | Some arg => if path_converter arg then Some (target arg) else None
  | None => None
  end.

Definition exact (rule_path : string) (target : Target) (path : string) : option Target :=
  if String.eqb path rule_path then Some target else None.

(** [@app.get(...)] registers the rule for GET; HEAD and OPTIONS are
    added by Werkzeug and Flask. *)
Definition get_methods : list Method := [GET; HEAD; OPTIONS].

Definition feature_rule (bp : Blueprint) (r : FeatureRule) : Rule :=
  mk_rule (fr_methods r)
    (fun path =>
       match strip_prefix (bp_prefix bp) path with
       | Some rest =>
           if (String.eqb rest "" || Py.startswith "/" rest) && fr_matches r rest
           then Some (ToFeature (bp_name bp) (fr_view r))
           else None
       | None => None
       end).

Definition blueprint_rules (bp : Blueprint) : list Rule :=
  map (feature_rule bp) (bp_rules bp).


(** The rules of the application itself.  Werkzeug tries a rule with a
    fixed first segment before [/<path:path>], whose only segment is a
    converter, so the catch-all comes last. *)
Definition app_rules : list Rule :=
  [ mk_rule get_methods (with_path_argument "/uploads/" ToServeUpload);
    mk_rule get_methods (with_path_argument "/certs/" ToServeCert);
    mk_rule get_methods (exact "/health" ToHealth);
    mk_rule get_methods (exact "/" ToSpaRoot);
    mk_rule get_methods (with_path_argument "/" ToSpaCatchAll) ].

Definition url_map (bps : list Blueprint) : list Rule :=
  flat_map blueprint_rules bps ++ app_rules.

(** Matching: the first rule, in the order of the map, that matches the
    path and allows the method; [seen] records that some rule matched the
    path with another method. *)
Fixpoint match_rules (rules : list Rule) (seen : bool) (req : Request) : Target :=
  match rules with
  | [] => if seen then MethodNotAllowed else NoRule
  | r :: rest =>
      match rule_match r (req_path req) with
      | Some t =>
          if bool_decide (req_method req ∈ rule_methods r) then t
          else match_rules rest true req
      | None => match_rules rest seen req
      end
  end.

Definition dispatch (bps : list Blueprint) (req : Request) : Target :=
  match_rules (url_map bps) false req.

(** The response to a GET request that reached a view of this file;
    [ping] is the outcome of the database round-trip should the view be
    [health]. *)
Definition respond (app : App) (fs : filesystem) (cwd : list string)
    (ping : result unit) (t : Target) : option (result Response) :=
  match t with
  | ToServeUpload filename => Some (Ok (serve_upload app fs cwd filename))
  | ToServeCert filename => Some (Ok (serve_cert app fs cwd filename))
  | ToHealth => Some (health ping)
  | ToSpaRoot => Some (Ok (spa_root app fs cwd))
  | ToSpaCatchAll path => Some (Ok (spa_catch_all app fs cwd path))
  | ToFeature _ _ | MethodNotAllowed | NoRule => None
  end.

(** ** Reading a setting

    [set_or_default env name of_text dflt actual]: the value [actual] the
    program works with comes from the text of the variable [name] when
    the variable exists, and is [dflt] when it does not. *)
Definition set_or_default {A : Type} (env : environ) (name : string)
    (of_text : string -> A) (dflt : A) (actual : A) : Prop :=
  (forall v, env !! name = Some v -> actual = of_text v)
  /\ (env !! name = None -> actual = dflt).

(** One request served: the response and the file system afterwards.
    No view of [app.py] writes to the file system, and the dispatcher
    keeps no state of its own between requests. *)
Definition handle (bps : list Blueprint) (app : App) (cwd : list string)
    (ping : result unit) (fs : filesystem) (req : Request)
    : option (result Response) * filesystem :=
  (respond app fs cwd ping (dispatch bps req), fs).

(** The first rule of [rules] that matches the path of [req] and allows
    its method, with the target it gives. *)
Fixpoint first_hit (rules : list Rule) (req : Request) : option Target :=
  match rules with
  | [] => None
  | r :: rest =>
      match rule_match r (req_path req) with
      | Some t => if bool_decide (req_method req ∈ rule_methods r) then Some t
                  else first_hit rest req
      | None => first_hit rest req
      end
  end.


(** ** Locations below a directory *)

(** A plain name: a path component that names an entry of a directory
    (not empty, not [.], not [..], without a slash). *)
Definition plain (c : string) : Prop :=
  c <> EmptyString /\ c <> "." /\ c <> ".." /\ Py.contains "/" c = false.

(** The stack of [normpath_loop] for a relative path: plain names on top
    of [..] entries. *)
Inductive stack_ok : list string -> Prop :=
| ok_dots (k : nat) : stack_ok (repeat ".." k)
| ok_plain (c : string) (st : list string) :
    plain c -> stack_ok st -> stack_ok (c :: st).



(** The components of the normal form [normpath] gives a relative file
    name (none for the empty name). *)
Definition normal_names (filename : string) : list string :=
  if String.eqb filename "" then []
  else rev (posixpath.normpath_loop 0 [] (Py.split "/" filename)).

(** The node reached from the directory [root] by the names [names]. *)
Definition lookup_below (fs : filesystem) (cwd : list string) (root : string)
    (names : list string) : option node :=
  match fsys.walk fs (fsys.start cwd root) (Py.split "/" root) with
  | Ok rootloc =>
      match fsys.node_at fs rootloc with
      | Some Dir =>
          match fsys.walk fs rootloc names with
          | Ok loc => fsys.node_at fs loc
          | Raise _ => None
          end
      | _ => None
      end
  | Raise _ => None
  end.


(** ** An installation used in the examples

    The application lives in [/srv/app], is started from there with an
    empty environment, and has one upload, a built front end and a file
    [/srv/secret.txt] outside every served directory. *)
Definition example_fs : filesystem :=
  list_to_map
    [ (["srv"], Dir);
      (["srv"; "secret.txt"], File "s3cr3t");
      (["srv"; "app"], Dir);
      (["srv"; "app"; "uploads"], Dir);
      (["srv"; "app"; "uploads"; "a.png"], File "PNG");
      (["srv"; "app"; "certs"], Dir);
      (["srv"; "app"; "frontend"], Dir);
      (["srv"; "app"; "frontend"; "dist"], Dir);
      (["srv"; "app"; "frontend"; "dist"; "index.html"], File "<html>");
      (["srv"; "app"; "frontend"; "dist"; "app.js"], File "js") ].

Definition example_cwd : list string := ["srv"; "app"].

Definition example_app : App :=
  let client := pymongo.mk_client "mongodb://localhost:27017/verdantia" (Some "verdantia") in
  mk_app (app_config ∅ example_cwd) AllOrigins "/srv/app" client
    (pymongo.mk_database client "verdantia").

(** A file system with the application directory and nothing in it. *)
Definition fresh_fs : filesystem :=
  list_to_map [ (["srv"], Dir); (["srv"; "app"], Dir) ].


(** ** Definitions used to state further properties *)

(** [only_adds_dirs fs fs']: going from [fs] to [fs'], every entry stays
    as it is and every new entry is a directory. *)
Definition only_adds_dirs (fs fs' : filesystem) : Prop :=
  forall loc, fs' !! loc = fs !! loc \/ (fs !! loc = None /\ fs' !! loc = Some Dir).

(** [file_at fs names]: the answer of a file route for the location
    [names] (a list of names from the root of the file system): the
    regular file found there, sent inline under its absolute path, or
    404. *)
Definition file_at (fs : filesystem) (names : list string) : Response :=
  match fsys.walk fs [] names with
  | Ok loc =>
      match fsys.node_at fs loc with
      | Some (File content) => FileResponse (chain_path true names) content false
      | _ => HttpError 404
      end
  | Raise _ => HttpError 404
  end.

(** * Properties *)

#[local] Arguments String.append : simpl nomatch.
#[local] Arguments Ascii.eqb : simpl never.
#[local] Arguments String.eqb : simpl never.

(** ** Facts about the string primitives *)

Module PyFacts.

Lemma split_nonempty (sep : ascii) (s : string) : Py.split sep s <> [].
Proof.
  induction s as [|c r IH]; simpl; [discriminate|].
  destruct (Ascii.eqb c sep); [discriminate|].
  destruct (Py.split sep r); [contradiction | discriminate].
Qed.

Lemma join_cons (sep x : string) (y : string) (l : list string) :
  Py.join sep (x :: y :: l) = x +:+ sep +:+ Py.join sep (y :: l).
Proof. reflexivity. Qed.

(** Joining the pieces with the separator gives the text back. *)
Lemma join_split (sep : ascii) (s : string) :
  Py.join (String sep EmptyString) (Py.split sep s) = s.
Proof.
  induction s as [|c r IH]; [reflexivity|].
  simpl. destruct (Ascii.eqb_spec c sep) as [->|Hne].
  - pose proof (split_nonempty sep r) as Hn.
    destruct (Py.split sep r) as [|y l]; [contradiction|].
    rewrite join_cons. simpl. simpl in IH. now rewrite IH.
  - pose proof (split_nonempty sep r) as Hn.
    destruct (Py.split sep r) as [|y l]; [contradiction|].
    destruct l as [|z l]; simpl in *; now rewrite <- IH.
Qed.

(** No piece holds the separator. *)
Lemma split_pieces (sep : ascii) (s : string) :
  Forall (fun piece => Py.contains sep piece = false) (Py.split sep s).
Proof.
  induction s as [|c r IH]; simpl.
  - repeat constructor.
  - destruct (Ascii.eqb_spec c sep) as [->|Hne].
    + constructor; [reflexivity | assumption].
    + destruct (Py.split sep r) as [|y l]; [repeat constructor; simpl|].
      * destruct (Ascii.eqb_spec sep c); [congruence | reflexivity].
      * inversion IH; subst. constructor; [|assumption].
        simpl. destruct (Ascii.eqb_spec sep c); [congruence | assumption].
Qed.

Lemma truthy_true (s : string) : Py.truthy s = true <-> s <> EmptyString.
Proof. destruct s; simpl; split; congruence. Qed.

Lemma truthy_false (s : string) : Py.truthy s = false <-> s = EmptyString.
Proof. destruct s; simpl; split; congruence. Qed.

End PyFacts.

(** ** The settings read from the environment *)

Section Settings.

Variable env : environ.

Lemma getenv_default_set (name dflt v : string) :
  env !! name = Some v -> os.getenv_default env name dflt = v.
Proof. unfold os.getenv_default. now intros ->. Qed.

Lemma getenv_default_unset (name dflt : string) :
  env !! name = None -> os.getenv_default env name dflt = dflt.
Proof. unfold os.getenv_default. now intros ->. Qed.

Lemma text_setting (name dflt : string) :
  set_or_default env name (fun v => v) dflt (os.getenv_default env name dflt).
Proof.
  split; [apply getenv_default_set | apply getenv_default_unset].
Qed.

Lemma converted_setting {A : Type} (name dflt : string) (f : string -> A) :
  set_or_default env name f (f dflt) (f (os.getenv_default env name dflt)).
Proof.
  split; intros; f_equal; [now apply getenv_default_set | now apply getenv_default_unset].
Qed.

End Settings.

(** The client is built from the text [os.getenv("MONGO_URI", ...)]
    returns. *)
Lemma init_db_client_uri (env : environ) (c : pymongo.Client) (d : pymongo.Database) :
  _init_db env = Ok (c, d) ->
  pymongo.client_uri c =
    os.getenv_default env "MONGO_URI" "mongodb://localhost:27017/verdantia".
Proof.
  unfold _init_db.
  assert (Hcl : forall uri cl, pymongo.MongoClient uri = Ok cl -> pymongo.client_uri cl = uri).
  { intros uri cl. unfold pymongo.MongoClient.
    destruct (Py.contains "/" uri); [|now intros [= <-]].
    destruct (pymongo.parse_uri uri) as [o|e]; simpl; [|discriminate]. now intros [= <-]. }
  destruct (pymongo.MongoClient _) as [cl|e] eqn:Hm; simpl; [|discriminate].
  apply Hcl in Hm. rewrite <- Hm. clear Hm Hcl.
  intros H.
  assert (Hc : c = cl).
  { destruct (os.getenv env "MONGO_DB") as [name|];
      [destruct (Py.truthy name)|];
      repeat match type of H with
             | context [bind ?m _] => destruct m as [?|?]; simpl in H; try discriminate
             | context [match ?x with Some _ => _ | None => _ end] =>
                 destruct x; simpl in H; try discriminate
             end; congruence. }
  now subst c.
Qed.

(** A database name that passes [check_name], or ["$external"], gives a
    [Database] of that name. *)
Lemma new_database_name (c : pymongo.Client) (name : string) (d : pymongo.Database) :
  pymongo.new_database c name = Ok d -> pymongo.db_name d = name /\ pymongo.db_client d = c.
Proof.
  unfold pymongo.new_database.
  destruct (if String.eqb name "$external" then Ok tt else pymongo.check_name name);
    simpl; [|discriminate].
  intros [= <-]. now split.
Qed.

(** Step 1 of the chain: a non-empty [MONGO_DB] names the database. *)
Lemma init_db_override (env : environ) (name : string)
    (c : pymongo.Client) (d : pymongo.Database) :
  env !! "MONGO_DB" = Some name -> name <> EmptyString ->
  _init_db env = Ok (c, d) -> pymongo.db_name d = name.
Proof.
  intros Hdb Hne. unfold _init_db, os.getenv. rewrite Hdb.
  apply PyFacts.truthy_true in Hne. rewrite Hne.
  destruct (pymongo.MongoClient _) as [cl|e]; simpl; [|discriminate].
  unfold pymongo.getitem.
  destruct (pymongo.new_database cl name) as [d'|e] eqn:Hd; simpl; [|discriminate].
  intros [= <- <-]. now apply new_database_name in Hd.
Qed.

(** An empty [MONGO_DB] is read as an absent one. *)
Lemma init_db_empty_override (env : environ) :
  _init_db (<["MONGO_DB" := ""]> env) = _init_db (delete "MONGO_DB" env).
Proof.
  unfold _init_db, os.getenv, os.getenv_default.
  rewrite lookup_insert_eq, lookup_delete_eq.
  rewrite lookup_insert_ne, lookup_delete_ne by discriminate.
  reflexivity.
Qed.

(** Step 2 of the chain: without an override, the name kept from the URI
    names the database. *)
Lemma init_db_from_uri (env : environ) (c : pymongo.Client) (d : pymongo.Database) :
  (env !! "MONGO_DB" = None \/ env !! "MONGO_DB" = Some EmptyString) ->
  _init_db env = Ok (c, d) ->
  pymongo.default_database_name c = Some (pymongo.db_name d).
Proof.
  intros Hdb. unfold _init_db, os.getenv.
  destruct (pymongo.MongoClient _) as [cl|e]; simpl; [|discriminate].
  assert (Hfrom : forall r,
            (do db <- (do db <- pymongo.get_default_database cl;
                       match db with
                       | Some d0 => Ok d0
                       | None => pymongo.getitem cl "verdantia"
                       end); Ok (cl, db)) = r ->
            r = Ok (c, d) -> pymongo.default_database_name c = Some (pymongo.db_name d)).
  { intros r <-. unfold pymongo.get_default_database.
    destruct (pymongo.default_database_name cl) as [n|] eqn:Hn; simpl; [|discriminate].
    destruct (pymongo.new_database cl n) as [d'|e] eqn:Hd; simpl; [|discriminate].
    intros [= <- <-]. apply new_database_name in Hd as [-> _]. assumption. }
  destruct Hdb as [-> | ->]; simpl; intros H; eapply Hfrom; eauto.
Qed.

(** C8, the claim as stated, fails at the environment in which
    [UPLOAD_DIR] and [PORT] are set to the empty text: the upload
    directory is then the empty text, not the default ["uploads"], and
    the port is not the default 5000 but the [ValueError] of [int('')]. *)
Lemma empty_value_is_not_replaced_by_default :
  let env : environ := <["UPLOAD_DIR" := ""]> {["PORT" := ""]} in
  env !! "UPLOAD_DIR" = Some EmptyString
  /\ UPLOAD_DIR (app_config env []) = EmptyString
  /\ run_port env = Raise (mk_exc ValueError "invalid literal for int() with base 10: ''").
Proof. repeat split. Qed.

(** C8, amended: every setting takes the text of its environment
    variable whenever the variable exists, empty or not, and its default
    only when the variable does not exist; the port is [int] of the text
    and the debug flag compares the lowered text with ["true"].  The
    explicit database name alone treats an empty text as an absent
    variable. *)
Theorem settings_follow_environment (env : environ) (cwd : list string) :
  let cfg := app_config env cwd in
  set_or_default env "JWT_SECRET_KEY" (fun v => v) "dev-secret-change-me" (JWT_SECRET_KEY cfg)
  /\ set_or_default env "UPLOAD_DIR" (fun v => v) "uploads" (UPLOAD_DIR cfg)
  /\ set_or_default env "CERT_DIR" (fun v => v) "certs" (CERT_DIR cfg)
  /\ set_or_default env "FRONTEND_DIR" (fun v => v)
       (posixpath.join (getcwd cwd) ["frontend"; "dist"]) (FRONTEND_DIR cfg)
  /\ set_or_default env "CORS_ORIGINS" origins_of AllOrigins (cors_origins env)
  /\ set_or_default env "PORT" port_of_text (Ok 5000%Z) (run_port env)
  /\ set_or_default env "FLASK_DEBUG" debug_of_text false (run_debug env)
  /\ (forall c d, _init_db env = Ok (c, d) ->
        set_or_default env "MONGO_URI" (fun v => v)
          "mongodb://localhost:27017/verdantia" (pymongo.client_uri c))
  /\ (forall name c d, env !! "MONGO_DB" = Some name -> name <> EmptyString ->
        _init_db env = Ok (c, d) -> pymongo.db_name d = name)
  /\ _init_db (<["MONGO_DB" := ""]> env) = _init_db (delete "MONGO_DB" env).
Proof.
  cbv zeta. repeat match goal with |- _ /\ _ => split end.
  1-4: apply text_setting.
  - apply (converted_setting env "CORS_ORIGINS" "*" origins_of).
  - split; intros; unfold run_port, os.getenv.
    + now rewrite H.
    + now rewrite H.
  - apply (converted_setting env "FLASK_DEBUG" "false" debug_of_text).
  - intros c d H. apply init_db_client_uri in H. rewrite H. apply text_setting.
  - intros name c d. apply init_db_override.
  - apply init_db_empty_override.
Qed.

Lemma settings_follow_environment_witness :
  UPLOAD_DIR (app_config {["UPLOAD_DIR" := "data/up"]} ["srv"]) = "data/up"
  /\ CERT_DIR (app_config {["UPLOAD_DIR" := "data/up"]} ["srv"]) = "certs"
  /\ FRONTEND_DIR (app_config {["UPLOAD_DIR" := "data/up"]} ["srv"]) = "/srv/frontend/dist".
Proof.
  pose proof (settings_follow_environment {["UPLOAD_DIR" := "data/up"]} ["srv"])
    as (_ & [Hup _] & [_ Hcert] & [_ Hfront] & _).
  split; [exact (Hup "data/up" eq_refl) | split; [exact (Hcert eq_refl) | exact (Hfront eq_refl)]].
Defined.

(** ** The cross-origin setting *)

(** C5, the claim as stated, fails at [",https://a.com, https://b.com"]:
    the list keeps the empty entry before the leading comma and the blank
    in front of the second origin. *)
Lemma origins_keep_empty_and_untrimmed_entries :
  origins_of ",https://a.com, https://b.com"
  = OriginList [""; "https://a.com"; " https://b.com"].
Proof. reflexivity. Qed.

(** C5, amended: the value ["*"] gives the wildcard; any other value gives
    the list of the texts between its commas, in order and as they are
    (not trimmed, and empty where two commas meet or one begins or ends
    the value): joined with commas they give the value back, and none
    holds a comma.  ['https://a.com,https://b.com'] gives exactly the two
    origins. *)
Theorem origins_of_setting (v : string) :
  (v = "*" -> origins_of v = AllOrigins)
  /\ (v <> "*" ->
      exists l, origins_of v = OriginList l
                /\ l <> []
                /\ Py.join "," l = v
                /\ Forall (fun origin => Py.contains "," origin = false) l)
  /\ origins_of "https://a.com,https://b.com" = OriginList ["https://a.com"; "https://b.com"].
Proof.
  split; [|split].
  - now intros ->.
  - intros Hne. exists (Py.split "," v). unfold origins_of.
    destruct (String.eqb_spec v "*") as [->|_]; [contradiction|]. simpl.
    split; [reflexivity|]. split; [apply PyFacts.split_nonempty|].
    split; [apply PyFacts.join_split | apply PyFacts.split_pieces].
  - reflexivity.
Qed.

Lemma origins_of_setting_witness :
  exists l, origins_of "https://a.com,https://b.com" = OriginList l
            /\ l <> []
            /\ Py.join "," l = "https://a.com,https://b.com"
            /\ Forall (fun origin => Py.contains "," origin = false) l.
Proof.
  apply (proj1 (proj2 (origins_of_setting "https://a.com,https://b.com"))).
  discriminate.
Defined.

(** ** The database chosen by [_init_db] *)

(** C1: a URI without a database name and no override.  The call
    [get_default_database()] raises [ConfigurationError]; the branch
    [if db is None] that would select ["verdantia"] is never reached. *)
Theorem init_db_uri_without_name_raises :
  _init_db {["MONGO_URI" := "mongodb://localhost:27017"]}
  = Raise (mk_exc ConfigurationError "No default database name defined or provided.").
Proof. reflexivity. Qed.

(** The same for every environment whose URI names no database and whose
    override is absent or empty. *)
Lemma init_db_without_any_name (env : environ) (c : pymongo.Client) :
  (env !! "MONGO_DB" = None \/ env !! "MONGO_DB" = Some EmptyString) ->
  pymongo.MongoClient (os.getenv_default env "MONGO_URI" "mongodb://localhost:27017/verdantia")
    = Ok c ->
  pymongo.default_database_name c = None ->
  _init_db env = Raise (mk_exc ConfigurationError "No default database name defined or provided.").
Proof.
  intros Hdb Hc Hn. unfold _init_db, os.getenv. rewrite Hc. simpl.
  unfold pymongo.get_default_database. rewrite Hn.
  destruct Hdb as [-> | ->]; reflexivity.
Qed.



(** ** The [/health] view *)

Lemma issubclass_refl (c : exc_class) : issubclass c c = true.
Proof. unfold issubclass. simpl. now rewrite decide_True. Qed.

(** The classes of [pymongo.errors] that [except PyMongoError] catches. *)
Lemma caught_by_health (c : exc_class) :
  issubclass c PyMongoError = true <->
  c ∈ [PyMongoError; ProtocolError; ConnectionFailure; AutoReconnect; NetworkTimeout;
       NotPrimaryError; ServerSelectionTimeoutError; ConfigurationError; InvalidURI;
       OperationFailure; ExecutionTimeout; WriteError; InvalidOperation; InvalidName].
Proof.
  split.
  - destruct c; vm_compute; intros H; try discriminate H;
      repeat (first [ apply list_elem_of_here | apply list_elem_of_further ]).
  - intros H. repeat (apply elem_of_cons in H as [-> | H]; [reflexivity|]).
    now apply elem_of_nil in H.
Qed.

(** C2, the claim as stated, fails at a ping that raises [PyMongoError()]
    (the class's default message is the empty text): the [error] field of
    the 500 response is the empty text.  It also fails at a ping that
    raises an exception outside [PyMongoError], here [InvalidDocument]:
    the exception leaves the view. *)
Lemma health_error_text_can_be_empty :
  health (Raise (mk_exc PyMongoError ""))
  = Ok (Json 500 [("ok", JBool false); ("db", JStr "down"); ("error", JStr "")])
  /\ health (Raise (mk_exc InvalidDocument "cannot encode object"))
     = Raise (mk_exc InvalidDocument "cannot encode object").
Proof. split; reflexivity. Qed.

(** C2, amended: a ping that returns gives 200 with [{ok: true, db: "up"}];
    a ping that raises a [PyMongoError] (of any subclass) gives 500 with
    [{ok: false, db: "down", error: str(e)}], whose [error] text is empty
    exactly when [str(e)] is; an exception of any other class is not
    caught and leaves the view. *)
Theorem health_responses (ping : result unit) :
  (forall u, ping = Ok u ->
     health ping = Ok (Json 200 [("ok", JBool true); ("db", JStr "up")]))
  /\ (forall e, ping = Raise e -> isinstance e PyMongoError = true ->
       health ping
       = Ok (Json 500 [("ok", JBool false); ("db", JStr "down"); ("error", JStr (exc_str e))]))
  /\ (forall e, ping = Raise e -> isinstance e PyMongoError = false ->
       health ping = Raise e).
Proof.
  repeat split; intros; subst ping; simpl; try reflexivity.
  - now rewrite H0.
  - now rewrite H0.
Qed.

Lemma health_responses_witness :
  health (Raise (mk_exc ServerSelectionTimeoutError "localhost:27017: timed out"))
  = Ok (Json 500 [("ok", JBool false); ("db", JStr "down");
                  ("error", JStr "localhost:27017: timed out")]).
Proof.
  exact (proj1 (proj2 (health_responses
                         (Raise (mk_exc ServerSelectionTimeoutError "localhost:27017: timed out"))))
           _ eq_refl eq_refl).
Defined.

(** ** The URL map: which rule a request reaches *)

Module Routing.


Lemma strip_prefix_Some (p s r : string) : strip_prefix p s = Some r -> s = p +:+ r.
Proof.
  revert s. induction p as [|a p IH]; intros s; simpl.
  - now intros [= ->].
  - destruct s as [|b s]; [discriminate|].
    destruct (Ascii.eqb_spec a b) as [->|]; [|discriminate].
    intros H. apply IH in H. now rewrite H.
Qed.

(** [match_rules] gives the target of the first hit. *)
Lemma match_rules_first_hit (rules : list Rule) (seen : bool) (req : Request) (t : Target) :
  first_hit rules req = Some t -> match_rules rules seen req = t.
Proof.
  revert seen. induction rules as [|r rest IH]; intros seen; simpl; [discriminate|].
  destruct (rule_match r (req_path req)); [|apply IH].
  destruct (bool_decide _); [now intros [= ->] | apply IH].
Qed.

(** Without a hit there is no target: the answer is 405 or no rule. *)
Lemma match_rules_no_hit (rules : list Rule) (seen : bool) (req : Request) :
  first_hit rules req = None ->
  match_rules rules seen req = MethodNotAllowed \/ match_rules rules seen req = NoRule.
Proof.
  revert seen. induction rules as [|r rest IH]; intros seen; simpl.
  - destruct seen; auto.
  - destruct (rule_match r (req_path req)); [|apply IH].
    destruct (bool_decide _); [discriminate | apply IH].
Qed.



(** A hit comes from a rule of the list that matches the path and
    allows the method. *)
Lemma first_hit_Some (rules : list Rule) (req : Request) (t : Target) :
  first_hit rules req = Some t ->
  exists r, r ∈ rules /\ rule_match r (req_path req) = Some t
            /\ req_method req ∈ rule_methods r.
Proof.
  induction rules as [|r rest IH]; simpl; [discriminate|].
  destruct (rule_match r (req_path req)) as [t'|] eqn:Hm.
  - destruct (bool_decide (req_method req ∈ rule_methods r)) eqn:Hd.
    + intros [= ->]. exists r. apply bool_decide_eq_true in Hd.
      split; [apply list_elem_of_here | now split].
    + intros H. destruct (IH H) as (r' & Hin & ?). exists r'.
      split; [now apply list_elem_of_further | assumption].
  - intros H. destruct (IH H) as (r' & Hin & ?). exists r'.
    split; [now apply list_elem_of_further | assumption].
Qed.

Lemma first_hit_None (rules : list Rule) (req : Request) :
  first_hit rules req = None ->
  Forall (fun r => rule_match r (req_path req) = None
                   \/ req_method req ∉ rule_methods r) rules.
Proof.
  induction rules as [|r rest IH]; simpl; [constructor|].
  destruct (rule_match r (req_path req)) as [t'|] eqn:Hm.
  - destruct (bool_decide (req_method req ∈ rule_methods r)) eqn:Hd; [discriminate|].
    apply bool_decide_eq_false in Hd. intros H. constructor; [now right | now apply IH].
  - intros H. constructor; [now left | now apply IH].
Qed.

(** A hit among the rules of a blueprint is a view of that blueprint,
    and the path is the prefix followed by nothing or by a slash. *)
Lemma blueprint_hit (bp : Blueprint) (req : Request) (t : Target) :
  first_hit (blueprint_rules bp) req = Some t ->
  exists r rest, r ∈ bp_rules bp
    /\ t = ToFeature (bp_name bp) (fr_view r)
    /\ req_path req = bp_prefix bp +:+ rest
    /\ fr_matches r rest = true
    /\ req_method req ∈ fr_methods r.
Proof.
  intros H. apply first_hit_Some in H as (r & Hin & Hm & Hmeth).
  unfold blueprint_rules in Hin. apply list_elem_of_fmap in Hin as (fr & -> & Hfr).
  simpl in Hm, Hmeth.
  destruct (strip_prefix (bp_prefix bp) (req_path req)) as [rest|] eqn:Hp; [|discriminate].
  destruct (_ && fr_matches fr rest) eqn:Hc; [|discriminate].
  injection Hm as <-. apply andb_prop in Hc as [_ Hc]. apply strip_prefix_Some in Hp.
  exists fr, rest. repeat split; assumption.
Qed.












End Routing.




(** ** Paths: splitting, joining, normalising *)

Module PathFacts.

Import PyFacts.

Lemma append_assoc (a b c : string) : (a +:+ b) +:+ c = a +:+ b +:+ c.
Proof. induction a as [|x a IH]; simpl; [reflexivity | now f_equal]. Qed.

Lemma append_empty_r (a : string) : a +:+ "" = a.
Proof. induction a as [|x a IH]; simpl; [reflexivity | now f_equal]. Qed.

(** Splitting distributes over a separator. *)
Lemma split_app_sep (sep : ascii) (a b : string) :
  Py.split sep (a +:+ String sep b) = Py.split sep a ++ Py.split sep b.
Proof.
  induction a as [|c a IH]; simpl.
  - now rewrite Ascii.eqb_refl.
  - destruct (Ascii.eqb c sep); [now rewrite IH|].
    rewrite IH. pose proof (split_nonempty sep a).
    destruct (Py.split sep a); [contradiction | reflexivity].
Qed.

Lemma split_no_sep (sep : ascii) (s : string) :
  Py.contains sep s = false -> Py.split sep s = [s].
Proof.
  induction s as [|c s IH]; simpl; [reflexivity|].
  rewrite (Ascii.eqb_sym sep c). destruct (Ascii.eqb c sep); [discriminate|].
  intros H. now rewrite (IH H).
Qed.

(** Splitting a join of separator-free pieces gives the pieces back. *)
Lemma split_join (sep : ascii) (l : list string) :
  l <> [] -> Forall (fun piece => Py.contains sep piece = false) l ->
  Py.split sep (Py.join (String sep EmptyString) l) = l.
Proof.
  induction l as [|x l IH]; [contradiction|]. intros _ Hall.
  inversion Hall as [|? ? Hx Hl]; subst.
  destruct l as [|y l].
  - simpl. now apply split_no_sep.
  - rewrite join_cons. change (String sep "" +:+ ?r) with (String sep r).
    rewrite split_app_sep, (split_no_sep _ _ Hx), IH; [reflexivity | discriminate | assumption].
Qed.

Lemma startswith_slash (s : string) :
  Py.startswith "/" s = true <-> exists r, s = String "/" r.
Proof.
  destruct s as [|c s]; simpl.
  - split; [discriminate | intros [r Hr]; discriminate].
  - destruct (Ascii.eqb_spec "/" c) as [<-|Hne].
    + split; eauto.
    + split; [discriminate | intros [r [= Hc]]; congruence].
Qed.

Lemma endswith_slash_snoc (s : string) :
  posixpath.endswith_slash s = true <-> exists r, s = r +:+ "/".
Proof.
  induction s as [|c s IH].
  - simpl. split; [discriminate | intros [[|? ?] Hr]; discriminate].
  - destruct s as [|d s].
    + simpl. destruct (Ascii.eqb_spec c "/") as [->|Hne].
      * split; [intros _; now exists EmptyString | reflexivity].
      * split; [discriminate|].
        intros [[|x [|y r]] Hr]; simpl in Hr; try discriminate; congruence.
    + change (posixpath.endswith_slash (String c (String d s)))
        with (posixpath.endswith_slash (String d s)).
      rewrite IH. split.
      * intros [r ->]. now exists (String c r).
      * intros [[|x r] Hr]; simpl in Hr; [discriminate|].
        injection Hr as -> Hr. eauto.
Qed.

(** *** Walking *)

Section Walk.

Variable fs : filesystem.

Lemma walk_app (loc : list string) (a b : list string) :
  fsys.walk fs loc (a ++ b) =
    match fsys.walk fs loc a with
    | Ok l => fsys.walk fs l b
    | Raise e => Raise e
    end.
Proof.
  revert loc. induction a as [|c a IH]; intros loc; simpl; [reflexivity|].
  destruct (fsys.node_at fs loc) as [[|]|]; try reflexivity.
  destruct (_ || _); [apply IH|].
  destruct (String.eqb c ".."); [apply IH|].
  destruct (fs !! (loc ++ [c])); [apply IH | reflexivity].
Qed.

(** A walk that takes at least one step starts in a directory. *)
Lemma walk_starts_in_dir (loc l : list string) (c : string) (cs : list string) :
  fsys.walk fs loc (c :: cs) = Ok l -> fsys.node_at fs loc = Some Dir.
Proof. simpl. destruct (fsys.node_at fs loc) as [[|]|]; [discriminate | reflexivity | discriminate]. Qed.

(** An empty component or a dot stays in place. *)
Lemma walk_skip (loc : list string) (c : string) (cs : list string) :
  c = EmptyString \/ c = "." ->
  fsys.node_at fs loc = Some Dir ->
  fsys.walk fs loc (c :: cs) = fsys.walk fs loc cs.
Proof. intros [-> | ->] Hd; simpl; now rewrite Hd. Qed.

Lemma plain_eqb (c : string) :
  plain c -> String.eqb c "" || String.eqb c "." = false /\ String.eqb c ".." = false.
Proof.
  intros (H1 & H2 & H3 & _).
  apply String.eqb_neq in H1, H2, H3. now rewrite H1, H2, H3.
Qed.

(** A plain name steps into the entry of that name. *)
Lemma walk_plain_step (loc : list string) (c : string) (cs : list string) :
  plain c ->
  fsys.walk fs loc (c :: cs) =
    match fsys.node_at fs loc with
    | Some Dir =>
        match fs !! (loc ++ [c]) with
        | Some _ => fsys.walk fs (loc ++ [c]) cs
        | None => Raise fsys.ENOENT
        end
    | Some (File _) => Raise fsys.ENOTDIR
    | None => Raise fsys.ENOENT
    end.
Proof.
  intros Hc. apply plain_eqb in Hc as [H1 H2]. simpl. now rewrite H1, H2.
Qed.


End Walk.

(** *** [normpath] on a relative path *)

Lemma stack_ok_split (st : list string) :
  stack_ok st ->
  exists k names, rev st = repeat ".." k ++ names /\ Forall plain names.
Proof.
  induction 1 as [k | c st Hc _ (k & names & Hrev & Hall)].
  - exists k, []. split; [|constructor].
    rewrite app_nil_r. induction k as [|k IH]; [reflexivity|].
    simpl. rewrite IH. change ([".."]) with (repeat ".." 1).
    rewrite <- repeat_app. now rewrite Nat.add_1_r.
  - exists k, (names ++ [c]). split.
    + simpl. rewrite Hrev. now rewrite <- app_assoc.
    + apply Forall_app. split; [assumption | constructor; [assumption | constructor]].
Qed.

Lemma loop_keeps_stack_ok (comps st : list string) :
  Forall (fun c => Py.contains "/" c = false) comps ->
  stack_ok st -> stack_ok (posixpath.normpath_loop 0 st comps).
Proof.
  intros Hall. revert st. induction Hall as [|c comps Hc _ IH]; intros st Hst; simpl.
  - assumption.
  - destruct (String.eqb_spec c "") as [->|Hne1]; [now apply IH|].
    destruct (String.eqb_spec c ".") as [->|Hne2]; [now apply IH|].
    simpl. destruct (String.eqb_spec c "..") as [->|Hne3]; simpl.
    + destruct st as [|top st'].
      * apply IH. apply (ok_dots 1).
      * destruct (String.eqb_spec top "..") as [->|Hne4].
        -- apply IH. inversion Hst as [k Hk | ? ? Hp _]; subst.
           ++ apply (ok_dots (S k)).
           ++ destruct Hp as (_ & _ & Hdd & _). contradiction.
        -- apply IH. inversion Hst as [k Hk | ? ? _ Hst']; subst; [|assumption].
           destruct k; simpl in Hk; [discriminate | congruence].
    + apply IH. apply ok_plain; [|assumption]. now repeat split.
Qed.

Lemma normpath_relative (path : string) :
  path <> EmptyString -> Py.startswith "/" path = false ->
  posixpath.normpath path =
    let joined := Py.join "/" (rev (posixpath.normpath_loop 0 [] (Py.split "/" path))) in
    if Py.truthy joined then joined else ".".
Proof.
  intros Hne Hrel. unfold posixpath.normpath.
  apply truthy_true in Hne. rewrite Hne, Hrel. reflexivity.
Qed.

Lemma normpath_absolute (path : string) :
  Py.startswith "/" path = true -> Py.startswith "/" (posixpath.normpath path) = true.
Proof.
  intros Habs. unfold posixpath.normpath. rewrite Habs.
  destruct path as [|c path]; [discriminate|]. simpl Py.truthy. cbv iota. simpl negb. cbv iota.
  destruct (_ && _); reflexivity.
Qed.

Lemma join_plain_relative (names : list string) :
  Forall plain names -> Py.startswith "/" (Py.join "/" names) = false.
Proof.
  intros Hall. destruct Hall as [|c names (Hne & _ & _ & Hns) _]; [reflexivity|].
  destruct c as [|a c]; [contradiction|].
  simpl in Hns. destruct (Ascii.eqb_spec "/" a); [discriminate|].
  destruct names; simpl; destruct (Ascii.eqb_spec "/" a); congruence.
Qed.

(** A normal form that begins with [..] is [..] itself or begins with
    [../]. *)
Lemma join_dotdot (rest : list string) :
  String.eqb (Py.join "/" (".." :: rest)) ".." || Py.startswith "../" (Py.join "/" (".." :: rest))
  = true.
Proof. destruct rest; reflexivity. Qed.

Lemma plain_no_slash (names : list string) :
  Forall plain names -> Forall (fun c => Py.contains "/" c = false) names.
Proof. apply Forall_impl. now intros c (_ & _ & _ & H). Qed.

(** *** [join] *)

Lemma truthy_app (a d : string) : Py.truthy d = true -> Py.truthy (a +:+ d) = true.
Proof. destruct a; [now simpl | reflexivity]. Qed.

Lemma endswith_slash_app (a d : string) :
  d <> EmptyString -> posixpath.endswith_slash (a +:+ d) = posixpath.endswith_slash d.
Proof.
  intros Hd. induction a as [|c a IH]; [reflexivity|].
  simpl String.append. destruct (a +:+ d) as [|x y] eqn:Hx.
  - destruct a; simpl in Hx; [contradiction | discriminate].
  - exact IH.
Qed.

Lemma startswith_slash_app (d t : string) :
  d <> EmptyString -> Py.startswith "/" (d +:+ t) = Py.startswith "/" d.
Proof. destruct d; [contradiction | reflexivity]. Qed.

Lemma join2_relative (d t : string) :
  Py.startswith "/" t = false ->
  posixpath.join2 d t =
    if negb (Py.truthy d) || posixpath.endswith_slash d then d +:+ t else d +:+ "/" +:+ t.
Proof. intros Ht. unfold posixpath.join2. now rewrite Ht. Qed.

(** Where the resolution of a joined path starts. *)
Lemma join2_isabs (d t : string) :
  d <> EmptyString -> Py.startswith "/" t = false ->
  Py.startswith "/" (posixpath.join2 d t) = Py.startswith "/" d.
Proof.
  intros Hd Ht. rewrite join2_relative by assumption.
  destruct (_ || _); now apply startswith_slash_app.
Qed.

Lemma join2_nonempty (d t : string) :
  d <> EmptyString -> Py.startswith "/" t = false -> posixpath.join2 d t <> EmptyString.
Proof.
  intros Hd Ht. rewrite join2_relative by assumption.
  destruct d; [contradiction|]. destruct (_ || _); discriminate.
Qed.

(** Joining in two steps or in one gives the same path. *)
Lemma join2_assoc (root d t : string) :
  d <> EmptyString -> Py.startswith "/" t = false ->
  posixpath.join2 root (posixpath.join2 d t) = posixpath.join2 (posixpath.join2 root d) t.
Proof.
  intros Hd Ht.
  assert (Hjt : Py.startswith "/" (posixpath.join2 d t) = Py.startswith "/" d)
    by now apply join2_isabs.
  assert (Htd : Py.truthy d = true) by now apply truthy_true.
  destruct (Py.startswith "/" d) eqn:Habs.
  - assert (H1 : posixpath.join2 root d = d) by (unfold posixpath.join2; now rewrite Habs).
    rewrite H1. unfold posixpath.join2 at 1. now rewrite Hjt.
  - rewrite (join2_relative root (posixpath.join2 d t)) by assumption.
    rewrite (join2_relative root d) by assumption.
    rewrite (join2_relative d t) by assumption.
    rewrite Htd. simpl negb. cbv iota. simpl orb.
    destruct (negb (Py.truthy root) || posixpath.endswith_slash root).
    + rewrite join2_relative by assumption.
      rewrite endswith_slash_app, truthy_app by assumption. simpl.
      destruct (posixpath.endswith_slash d); now rewrite ?append_assoc.
    + rewrite join2_relative by assumption.
      rewrite <- (append_assoc root "/" d).
      rewrite endswith_slash_app, truthy_app by assumption. simpl.
      destruct (posixpath.endswith_slash d); now rewrite !append_assoc.
Qed.

(** The components of a joined path: those of the directory, without
    the empty one a trailing slash leaves, then those of the rest. *)
Lemma split_join2 (d t : string) :
  d <> EmptyString -> Py.startswith "/" t = false ->
  exists dcomps,
    Py.split "/" (posixpath.join2 d t) = dcomps ++ Py.split "/" t
    /\ (Py.split "/" d = dcomps \/ Py.split "/" d = dcomps ++ [""]).
Proof.
  intros Hd Ht. rewrite join2_relative by assumption.
  apply truthy_true in Hd. rewrite Hd. simpl.
  destruct (posixpath.endswith_slash d) eqn:He.
  - apply endswith_slash_snoc in He as [r ->]. exists (Py.split "/" r).
    rewrite append_assoc. change ("/" +:+ t) with (String "/" t).
    rewrite !split_app_sep. auto.
  - exists (Py.split "/" d). change ("/" +:+ t) with (String "/" t).
    rewrite split_app_sep. auto.
Qed.

Section WalkJoin.

Variable fs : filesystem.

(** Resolving a joined path is resolving the directory and going on from
    there. *)
Lemma walk_join2 (loc l : list string) (d t : string) :
  d <> EmptyString -> Py.startswith "/" t = false ->
  fsys.walk fs loc (Py.split "/" (posixpath.join2 d t)) = Ok l <->
  exists r, fsys.walk fs loc (Py.split "/" d) = Ok r
            /\ fsys.node_at fs r = Some Dir
            /\ fsys.walk fs r (Py.split "/" t) = Ok l.
Proof.
  intros Hd Ht. destruct (split_join2 d t Hd Ht) as (dcomps & -> & Hdc).
  rewrite walk_app. pose proof (split_nonempty "/" t) as Hn.
  destruct (Py.split "/" t) as [|c cs] eqn:Hs; [contradiction|].
  split.
  - destruct (fsys.walk fs loc dcomps) as [r|e] eqn:Hw; [|discriminate].
    intros Hl. pose proof (walk_starts_in_dir fs _ _ _ _ Hl) as Hdir.
    exists r. split; [|now split].
    destruct Hdc as [-> | ->]; [assumption|].
    rewrite walk_app, Hw. simpl. now rewrite Hdir.
  - intros (r & Hr & Hdir & Hl). destruct Hdc as [Hdc | Hdc]; rewrite Hdc in Hr.
    + now rewrite Hr.
    + rewrite walk_app in Hr. destruct (fsys.walk fs loc dcomps) as [r'|e]; [|discriminate].
      simpl in Hr. destruct (fsys.node_at fs r') as [[|]|]; try discriminate.
      now injection Hr as ->.
Qed.

End WalkJoin.

End PathFacts.

(** ** Serving files: [safe_join] and [send_from_directory] *)

Module Serving.

Import PyFacts PathFacts.

Lemma join_one (d f : string) : posixpath.join d [f] = posixpath.join2 d f.
Proof. reflexivity. Qed.

Lemma normal_names_nonempty (f : string) :
  f <> EmptyString ->
  normal_names f = rev (posixpath.normpath_loop 0 [] (Py.split "/" f)).
Proof. intros Hf. unfold normal_names. now destruct (String.eqb_spec f ""). Qed.

Lemma join_dotdot_truthy (rest : list string) : Py.truthy (Py.join "/" (".." :: rest)) = true.
Proof. destruct rest; reflexivity. Qed.

Lemma join_plain_truthy (c : string) (rest : list string) :
  plain c -> Py.truthy (Py.join "/" (c :: rest)) = true.
Proof.
  intros (Hne & _). destruct c; [contradiction|]. destruct rest; reflexivity.
Qed.

(** What [safe_join] accepts: the directory, or ["."] for an empty one,
    joined with a relative path whose components are the plain names of
    the normal form of the file name. *)
Lemma safe_join_Some (d f j : string) :
  werkzeug.safe_join d f = Some j ->
  exists t,
    j = posixpath.join2 (if negb (Py.truthy d) then "." else d) t
    /\ Py.startswith "/" t = false
    /\ Forall plain (normal_names f)
    /\ (forall (fs : filesystem) (r : list string),
          fsys.node_at fs r = Some Dir ->
          fsys.walk fs r (Py.split "/" t) = fsys.walk fs r (normal_names f)).
Proof.
  unfold werkzeug.safe_join. rewrite join_one.
  set (d' := if negb (Py.truthy d) then "." else d).
  destruct (String.eqb_spec f "") as [->|Hf].
  - simpl. intros [= <-]. exists EmptyString. repeat split; [constructor|].
    intros fs r Hdir. simpl. now rewrite Hdir.
  - simpl negb. cbv iota.
    destruct (Py.startswith "/" f) eqn:Habs.
    + unfold posixpath.isabs. now rewrite (normpath_absolute f Habs).
    + rewrite normpath_relative by assumption. cbv zeta.
      rewrite normal_names_nonempty by assumption.
      pose proof (loop_keeps_stack_ok (Py.split "/" f) [] (split_pieces "/" f) (ok_dots 0))
        as Hok.
      apply stack_ok_split in Hok as (k & names & -> & Hall).
      destruct k as [|k].
      * simpl repeat. simpl app. destruct names as [|c names].
        -- simpl. intros [= <-]. exists ".". repeat split; [constructor|].
           intros fs r Hdir. simpl. now rewrite Hdir.
        -- inversion Hall as [|? ? Hc Hnames]; subst.
           rewrite (join_plain_truthy c names Hc).
           destruct (_ || _); [discriminate|]. intros [= <-].
           exists (Py.join "/" (c :: names)). repeat split.
           ++ now apply join_plain_relative.
           ++ assumption.
           ++ intros fs r _. rewrite split_join; [reflexivity | discriminate |].
              now apply plain_no_slash.
      * simpl repeat. simpl app. rewrite join_dotdot_truthy.
        pose proof (join_dotdot (repeat ".." k ++ names)) as Hdd.
        rewrite <- orb_assoc, Hdd, orb_true_r. discriminate.
Qed.

Lemma join2_nonempty_r (root d : string) :
  d <> EmptyString -> posixpath.join2 root d <> EmptyString.
Proof.
  intros Hd. unfold posixpath.join2. destruct (Py.startswith "/" d); [assumption|].
  destruct d as [|c d]; [contradiction|].
  destruct (_ || _); destruct root; discriminate.
Qed.

Lemma start_join2 (cwd : list string) (d t : string) :
  d <> EmptyString -> Py.startswith "/" t = false ->
  fsys.start cwd (posixpath.join2 d t) = fsys.start cwd d.
Proof.
  intros Hd Ht. unfold fsys.start, posixpath.isabs. now rewrite join2_isabs.
Qed.

Lemma served_dir_nonempty (d : string) : (if negb (Py.truthy d) then "." else d) <> EmptyString.
Proof. destruct d; discriminate. Qed.

Section Send.

Variable fs : filesystem.
Variable cwd : list string.

(** [stat] of a joined path, in terms of the directory and the rest. *)
Lemma stat_join2 (base t : string) (names : list string) :
  base <> EmptyString -> Py.startswith "/" t = false ->
  (forall r, fsys.node_at fs r = Some Dir ->
     fsys.walk fs r (Py.split "/" t) = fsys.walk fs r names) ->
  match fsys.stat fs cwd (posixpath.join2 base t) with
  | Ok n => Some n
  | Raise _ => None
  end = lookup_below fs cwd base names.
Proof.
  intros Hb Ht Hnames. unfold fsys.stat, lookup_below.
  pose proof (join2_nonempty base t Hb Ht) as Hne. apply truthy_true in Hne.
  rewrite Hne, start_join2 by assumption. simpl negb. cbv iota.
  destruct (fsys.walk fs (fsys.start cwd base) (Py.split "/" (posixpath.join2 base t)))
    as [l|e] eqn:Hw.
  - apply walk_join2 in Hw as (r & Hr & Hdir & Hl); [|assumption..].
    rewrite Hr, Hdir, <- Hnames, Hl by assumption. simpl.
    now destruct (fsys.node_at fs l).
  - simpl. destruct (fsys.walk fs (fsys.start cwd base) (Py.split "/" base)) as [r|] eqn:Hr;
      [|reflexivity].
    destruct (fsys.node_at fs r) as [[|]|] eqn:Hdir; try reflexivity.
    destruct (fsys.walk fs r names) as [l|] eqn:Hl; [|reflexivity].
    exfalso. rewrite <- Hnames in Hl by assumption.
    assert (Hex : exists r, fsys.walk fs (fsys.start cwd base) (Py.split "/" base) = Ok r
                            /\ fsys.node_at fs r = Some Dir
                            /\ fsys.walk fs r (Py.split "/" t) = Ok l) by eauto.
    apply (walk_join2 fs _ l base t Hb Ht) in Hex. congruence.
Qed.

(** [send_from_directory] in terms of locations: the file served is the
    regular file reached from the directory by the plain names of the
    normalised file name. *)
Lemma send_from_directory_lookup (root d f : string) (a : bool) :
  werkzeug.send_from_directory fs cwd root d f a =
    match werkzeug.safe_join d f with
    | None => HttpError 404
    | Some j =>
        match lookup_below fs cwd
                (posixpath.join2 root (if negb (Py.truthy d) then "." else d))
                (normal_names f) with
        | Some (File content) => FileResponse (posixpath.join2 root j) content a
        | _ => HttpError 404
        end
    end.
Proof.
  unfold werkzeug.send_from_directory.
  destruct (werkzeug.safe_join d f) as [j|] eqn:Hj; [|reflexivity].
  apply safe_join_Some in Hj as (t & -> & Ht & _ & Hnames).
  rewrite join_one.
  set (d' := if negb (Py.truthy d) then "." else d).
  pose proof (served_dir_nonempty d) as Hd'. fold d' in Hd'.
  rewrite (join2_assoc root d' t) by assumption.
  pose proof (stat_join2 (posixpath.join2 root d') t (normal_names f)
                (join2_nonempty_r root d' Hd') Ht (Hnames fs)) as Hst.
  rewrite <- Hst.
  now destruct (fsys.stat fs cwd (posixpath.join2 (posixpath.join2 root d') t)) as [[|]|].
Qed.




(** *** File names made of plain names *)

Lemma loop_plain (comps st : list string) :
  Forall plain comps -> posixpath.normpath_loop 0 st comps = rev comps ++ st.
Proof.
  intros Hall. revert st. induction Hall as [|c comps Hc _ IH]; intros st; [reflexivity|].
  simpl posixpath.normpath_loop. destruct (plain_eqb c Hc) as [H1 H2]. rewrite H1, H2.
  cbn [negb orb]. rewrite IH. simpl. now rewrite <- app_assoc.
Qed.


Lemma startswith_inv (p s : string) :
  Py.startswith p s = true -> exists r, s = p +:+ r.
Proof.
  revert s. induction p as [|a p IH]; intros s; simpl; [eauto|].
  destruct s as [|b s]; [discriminate|].
  destruct (Ascii.eqb_spec a b) as [->|]; [|discriminate].
  intros H. destruct (IH s H) as [r ->]. now exists r.
Qed.

(** [safe_join] accepts a file name made of plain names as it is. *)
Lemma safe_join_plain (d : string) (names : list string) :
  names <> [] -> Forall plain names ->
  werkzeug.safe_join d (Py.join "/" names)
  = Some (posixpath.join2 (if negb (Py.truthy d) then "." else d) (Py.join "/" names)).
Proof.
  intros Hne Hall.
  assert (Hsplit : Py.split "/" (Py.join "/" names) = names)
    by (apply split_join; [assumption | now apply plain_no_slash]).
  assert (Htr : Py.truthy (Py.join "/" names) = true).
  { destruct Hall as [|c cs Hc _]; [contradiction | now apply join_plain_truthy]. }
  pose proof (join_plain_relative names Hall) as Hrel.
  assert (Hnorm : posixpath.normpath (Py.join "/" names) = Py.join "/" names).
  { rewrite normpath_relative by (try assumption; now apply truthy_true).
    cbv zeta. now rewrite Hsplit, loop_plain, app_nil_r, rev_involutive, Htr. }
  unfold werkzeug.safe_join. rewrite join_one.
  assert (Hf : String.eqb (Py.join "/" names) "" = false)
    by (apply String.eqb_neq; now apply truthy_true).
  rewrite Hf. cbn [negb]. rewrite Hnorm. unfold posixpath.isabs. rewrite Hrel. cbn [orb].
  destruct (String.eqb_spec (Py.join "/" names) "..") as [Heq|_].
  { exfalso. rewrite Heq in Hsplit. simpl in Hsplit. subst names.
    inversion Hall as [|? ? (_ & _ & Hdd & _) _]. now apply Hdd. }
  destruct (Py.startswith "../" (Py.join "/" names)) eqn:Hsw; [|reflexivity].
  exfalso. apply startswith_inv in Hsw as [r Hr]. rewrite Hr in Hsplit.
  change ("../" +:+ r) with (".." +:+ String "/" r) in Hsplit.
  rewrite split_app_sep in Hsplit. simpl in Hsplit. subst names.
  inversion Hall as [|? ? (_ & _ & Hdd & _) _]. now apply Hdd.
Qed.


End Send.

End Serving.

(** ** The catch-all route and the index document *)

Module Spa.

Import PyFacts PathFacts Serving.

Lemma removelast_snoc (l : list string) (x : string) : removelast (l ++ [x]) = l.
Proof. apply removelast_last. Qed.

Section Normalise.

Variable fs : filesystem.
Variable loc : list string.

(** The kernel's walk over the components of a relative path ends
    where the walk over the components [normpath] keeps ends: a [..]
    that [normpath] cancels against a name undoes the step into it. *)
Lemma loop_walk (comps stack : list string) (cur l : list string) :
  Forall (fun c => c <> EmptyString /\ c <> ".") stack ->
  fsys.walk fs loc (rev stack) = Ok cur ->
  fsys.walk fs cur comps = Ok l ->
  fsys.walk fs loc (rev (posixpath.normpath_loop 0 stack comps)) = Ok l.
Proof.
  revert stack cur. induction comps as [|c comps IH]; intros stack cur Hst Hcur Hl.
  - simpl in *. congruence.
  - pose proof (walk_starts_in_dir fs _ _ _ _ Hl) as Hdir.
    simpl posixpath.normpath_loop.
    destruct (String.eqb_spec c "") as [->|Hne1].
    { simpl. rewrite walk_skip in Hl by auto. eapply IH; eauto. }
    destruct (String.eqb_spec c ".") as [->|Hne2].
    { simpl. rewrite walk_skip in Hl by auto. eapply IH; eauto. }
    simpl orb. cbv iota.
    destruct (String.eqb_spec c "..") as [->|Hne3].
    + simpl negb. simpl orb. simpl in Hl. rewrite Hdir in Hl.
      change (String.eqb ".." "" || String.eqb ".." ".") with false in Hl.
      change (String.eqb ".." "..") with true in Hl. cbv iota in Hl.
      assert (Hpush : forall st, Forall (fun c => c <> EmptyString /\ c <> ".") st ->
                fsys.walk fs loc (rev st) = Ok cur ->
                fsys.walk fs loc (rev (posixpath.normpath_loop 0 (".." :: st) comps)) = Ok l).
      { intros st Hst' Hcur'. apply (IH (".." :: st) (fsys.parent cur)); [| |assumption].
        - constructor; [split; discriminate | assumption].
        - simpl rev. rewrite walk_app, Hcur'. simpl. now rewrite Hdir. }
      destruct stack as [|top st]; [now apply Hpush|].
      destruct (String.eqb_spec top "..") as [->|Hne4]; [now apply Hpush|].
      simpl. inversion Hst as [|? ? [Ht1 Ht2] Hst']; subst.
      simpl rev in Hcur. rewrite walk_app in Hcur.
      destruct (fsys.walk fs loc (rev st)) as [prev|] eqn:Hprev; [|discriminate].
      assert (Hc : cur = prev ++ [top]).
      { simpl in Hcur. destruct (fsys.node_at fs prev) as [[|]|]; try discriminate.
        apply String.eqb_neq in Ht1, Ht2, Hne4. rewrite Ht1, Ht2, Hne4 in Hcur. simpl in Hcur.
        destruct (fs !! (prev ++ [top])); [now injection Hcur as <- | discriminate]. }
      apply (IH st prev); [assumption..|].
      unfold fsys.parent in Hl. now rewrite Hc, removelast_snoc in Hl.
    + simpl negb. simpl orb. cbv iota.
      apply String.eqb_neq in Hne1, Hne2, Hne3.
      simpl in Hl. rewrite Hdir, Hne1, Hne2, Hne3 in Hl. simpl in Hl.
      destruct (fs !! (cur ++ [c])) eqn:Hchild; [|discriminate].
      apply (IH (c :: stack) (cur ++ [c])); [| |assumption].
      * constructor; [|assumption]. now split; apply String.eqb_neq.
      * simpl rev. rewrite walk_app, Hcur. simpl.
        now rewrite Hdir, Hne1, Hne2, Hne3, Hchild.
Qed.

Lemma walk_normal_names (path : string) (l : list string) :
  fsys.walk fs loc (Py.split "/" path) = Ok l ->
  fsys.node_at fs loc = Some Dir ->
  fsys.walk fs loc (normal_names path) = Ok l.
Proof.
  intros Hl Hdir. unfold normal_names. destruct (String.eqb_spec path "") as [->|_].
  - simpl in Hl. now rewrite Hdir in Hl.
  - now apply (loop_walk _ [] loc).
Qed.

End Normalise.

End Spa.

(** ** The upload and certificate routes *)


(** ** Path traversal *)




(** ** The SPA fallback *)

Module SpaFacts.

Import PyFacts PathFacts Serving Spa.

Lemma absolute_nonempty (d : string) : posixpath.isabs d = true -> d <> EmptyString.
Proof. now destruct d. Qed.

Lemma join2_absolute (root d : string) :
  posixpath.isabs d = true -> posixpath.join2 root d = d.
Proof. unfold posixpath.isabs, posixpath.join2. now intros ->. Qed.

Lemma path_converter_relative (path : string) :
  path_converter path = true -> path <> EmptyString /\ Py.startswith "/" path = false.
Proof.
  destruct path as [|c path]; [discriminate|]. simpl.
  rewrite (Ascii.eqb_sym "/" c). destruct (Ascii.eqb c "/"); [discriminate | now split].
Qed.

Lemma stat_isfile (fs : filesystem) (cwd : list string) (p content : string) :
  fsys.stat fs cwd p = Ok (File content) -> fsys.isfile fs cwd p = true.
Proof. unfold fsys.isfile. now intros ->. Qed.

Lemma stat_exists (fs : filesystem) (cwd : list string) (p : string) (n : node) :
  fsys.stat fs cwd p = Ok n -> fsys.exists_ fs cwd p = true.
Proof. unfold fsys.exists_. now intros ->. Qed.

(** A regular file at the joined path is the file reached from the
    directory by the names of the normal form. *)
Lemma lookup_below_of_stat (fs : filesystem) (cwd : list string) (dir path content : string) :
  dir <> EmptyString -> Py.startswith "/" path = false ->
  fsys.stat fs cwd (posixpath.join2 dir path) = Ok (File content) ->
  lookup_below fs cwd dir (normal_names path) = Some (File content).
Proof.
  intros Hd Hrel Hstat.
  pose proof (stat_join2 fs cwd dir path (Py.split "/" path) Hd Hrel (fun _ _ => eq_refl))
    as Hraw.
  rewrite Hstat in Hraw. symmetry in Hraw. unfold lookup_below in *.
  destruct (fsys.walk fs (fsys.start cwd dir) (Py.split "/" dir)) as [r|]; [|discriminate].
  destruct (fsys.node_at fs r) as [[|]|] eqn:Hdir; try discriminate.
  destruct (fsys.walk fs r (Py.split "/" path)) as [l|] eqn:Hl; [|discriminate].
  now rewrite (walk_normal_names fs r path l Hl Hdir).
Qed.

Lemma safe_join_index (dir : string) :
  dir <> EmptyString ->
  werkzeug.safe_join dir "index.html" = Some (posixpath.join dir ["index.html"]).
Proof. destruct dir; [contradiction | reflexivity]. Qed.

End SpaFacts.

(** C4, the claim as stated, fails at the request for
    [/../../../secret.txt] in the example installation: the path joined
    to the frontend directory names the regular file [/srv/secret.txt],
    which is not under the frontend directory, the index document
    exists, and the response is 404: neither that file, nor the index
    document, nor the 501 payload. *)
Lemma traversal_to_existing_file_gives_404 :
  fsys.isfile example_fs example_cwd
    (posixpath.join (FRONTEND_DIR (config example_app)) ["../../../secret.txt"]) = true
  /\ fsys.exists_ example_fs example_cwd
       (posixpath.join (FRONTEND_DIR (config example_app)) ["index.html"]) = true
  /\ spa_catch_all example_app example_fs example_cwd "../../../secret.txt" = HttpError 404.
Proof. vm_compute. repeat split. Qed.

(** C4, amended: for an absolute frontend directory (the default is
    one) and a path as the catch-all route receives it.  If the path
    joined to the frontend directory names a regular file, the response
    is that file's bytes when the safe join accepts the path, and 404
    when the path leaves the directory; if it names no regular file the
    response is that of the root route.  The root route sends the index
    document when it is a regular file and the payload
    [{error: "frontend_not_built"}] with status 501 when it does not
    exist.  Serving a request leaves the file system as it is, so the
    same request served again gets the same response. *)
Theorem spa_fallback (app : App) (fs : filesystem) (cwd : list string) (path : string) :
  posixpath.isabs (FRONTEND_DIR (config app)) = true ->
  path_converter path = true ->
  let dir := FRONTEND_DIR (config app) in
  let full := posixpath.join dir [path] in
  let index := posixpath.join dir ["index.html"] in
  (forall content j,
     fsys.stat fs cwd full = Ok (File content) ->
     werkzeug.safe_join dir path = Some j ->
     spa_catch_all app fs cwd path
     = FileResponse (posixpath.join (root_path app) [j]) content false)
  /\ (fsys.isfile fs cwd full = true -> werkzeug.safe_join dir path = None ->
      spa_catch_all app fs cwd path = HttpError 404)
  /\ (fsys.isfile fs cwd full = false ->
      spa_catch_all app fs cwd path = spa_root app fs cwd)
  /\ (forall content,
        fsys.stat fs cwd index = Ok (File content) ->
        spa_root app fs cwd = FileResponse index content false)
  /\ (fsys.exists_ fs cwd index = false ->
      spa_root app fs cwd = Json 501 [("error", JStr "frontend_not_built")])
  /\ (forall bps ping req,
        let first := handle bps app cwd ping fs req in
        handle bps app cwd ping (snd first) req = first).
Proof.
  intros Habs Hconv dir full index.
  pose proof (SpaFacts.absolute_nonempty dir Habs) as Hdir.
  apply SpaFacts.path_converter_relative in Hconv as [Hpath Hrel].
  assert (Htruthy : Py.truthy dir = true) by now apply PyFacts.truthy_true.
  split; [|split; [|split; [|split; [|split]]]].
  - intros content j Hstat Hj. unfold spa_catch_all. fold dir. fold full.
    rewrite (SpaFacts.stat_isfile _ _ _ _ Hstat).
    rewrite Serving.send_from_directory_lookup, Hj, Htruthy. simpl negb. cbv iota.
    rewrite (SpaFacts.join2_absolute _ dir Habs).
    now rewrite (SpaFacts.lookup_below_of_stat fs cwd dir path content Hdir Hrel Hstat).
  - intros Hfile Hj. unfold spa_catch_all. fold dir. fold full. rewrite Hfile.
    unfold werkzeug.send_from_directory. now rewrite Hj.
  - intros Hfile. unfold spa_catch_all. fold dir. fold full. now rewrite Hfile.
  - intros content Hstat. unfold spa_root, serve_spa_index. fold dir. fold index.
    rewrite (SpaFacts.stat_exists _ _ _ _ Hstat).
    unfold werkzeug.send_from_directory.
    rewrite (SpaFacts.safe_join_index dir Hdir). fold index.
    assert (Hi : posixpath.join (root_path app) [index] = index).
    { apply SpaFacts.join2_absolute. unfold index, posixpath.isabs.
      rewrite Serving.join_one, PathFacts.join2_isabs; [exact Habs | exact Hdir | reflexivity]. }
    now rewrite Hi, Hstat.
  - intros Hex. unfold spa_root, serve_spa_index. fold dir. fold index. now rewrite Hex.
  - reflexivity.
Qed.

Lemma spa_fallback_witness :
  spa_catch_all example_app example_fs example_cwd "app.js"
  = FileResponse "/srv/app/frontend/dist/app.js" "js" false
  /\ spa_catch_all example_app example_fs example_cwd "games"
     = spa_root example_app example_fs example_cwd
  /\ spa_root example_app example_fs example_cwd
     = FileResponse "/srv/app/frontend/dist/index.html" "<html>" false.
Proof.
  pose proof (spa_fallback example_app example_fs example_cwd "app.js" eq_refl eq_refl)
    as (Hfile & _).
  pose proof (spa_fallback example_app example_fs example_cwd "games" eq_refl eq_refl)
    as (_ & _ & Hnone & Hindex & _).
  split; [|split].
  - exact (Hfile "js" "/srv/app/frontend/dist/app.js" eq_refl eq_refl).
  - exact (Hnone eq_refl).
  - exact (Hindex "<html>" eq_refl).
Defined.

(** ** Creating directories *)

Module FsFacts.

Import PyFacts PathFacts.

Lemma node_at_weaken (fs fs' : filesystem) (loc : list string) (n : node) :
  fs ⊆ fs' -> fsys.node_at fs loc = Some n -> fsys.node_at fs' loc = Some n.
Proof.
  intros Hsub. destruct loc; [trivial|]. simpl. intros H. exact (lookup_weaken fs fs' _ _ H Hsub).
Qed.

(** A walk that succeeds keeps succeeding when entries are added. *)
Lemma walk_weaken (fs fs' : filesystem) (loc l : list string) (comps : list string) :
  fs ⊆ fs' -> fsys.walk fs loc comps = Ok l -> fsys.walk fs' loc comps = Ok l.
Proof.
  intros Hsub. revert loc. induction comps as [|c comps IH]; intros loc; simpl; [trivial|].
  destruct (fsys.node_at fs loc) as [[|]|] eqn:Hn; try discriminate.
  rewrite (node_at_weaken fs fs' loc Dir Hsub Hn).
  destruct (_ || _); [apply IH|].
  destruct (String.eqb c ".."); [apply IH|].
  destruct (fs !! (loc ++ [c])) eqn:Hc; [|discriminate].
  rewrite (lookup_weaken fs fs' _ _ Hc Hsub). apply IH.
Qed.

Lemma stat_weaken (fs fs' : filesystem) (cwd : list string) (p : string) (n : node) :
  fs ⊆ fs' -> fsys.stat fs cwd p = Ok n -> fsys.stat fs' cwd p = Ok n.
Proof.
  intros Hsub. unfold fsys.stat. destruct (negb (Py.truthy p)); [discriminate|].
  destruct (fsys.walk fs _ _) as [l|] eqn:Hw; [|discriminate].
  rewrite (walk_weaken fs fs' _ _ _ Hsub Hw). simpl.
  destruct (fsys.node_at fs l) eqn:Hn; [|discriminate].
  intros [= <-]. now rewrite (node_at_weaken fs fs' l _ Hsub Hn).
Qed.

Lemma isdir_weaken (fs fs' : filesystem) (cwd : list string) (p : string) :
  fs ⊆ fs' -> fsys.isdir fs cwd p = true -> fsys.isdir fs' cwd p = true.
Proof.
  intros Hsub. unfold fsys.isdir.
  destruct (fsys.stat fs cwd p) as [[|]|] eqn:Hs; try discriminate.
  now rewrite (stat_weaken fs fs' cwd p Dir Hsub Hs).
Qed.

(** Empty components at the end of a path ask for a directory. *)
Lemma walk_empties (fs : filesystem) (loc : list string) (n : nat) :
  fsys.node_at fs loc = Some Dir -> fsys.walk fs loc (repeat EmptyString n) = Ok loc.
Proof. intros Hd. induction n as [|n IH]; simpl; [reflexivity | now rewrite Hd]. Qed.

(** Empty components in front of another component change nothing. *)
Lemma walk_skip_empties (fs : filesystem) (loc : list string) (n : nat)
    (c : string) (cs : list string) :
  fsys.walk fs loc (repeat EmptyString n ++ c :: cs) = fsys.walk fs loc (c :: cs).
Proof.
  induction n as [|n IH]; [reflexivity|].
  simpl repeat. simpl app.
  change (fsys.walk fs loc (EmptyString :: repeat EmptyString n ++ c :: cs))
    with (match fsys.node_at fs loc with
          | Some Dir => fsys.walk fs loc (repeat EmptyString n ++ c :: cs)
          | Some (File _) => Raise fsys.ENOTDIR
          | None => Raise fsys.ENOENT
          end).
  rewrite IH. simpl. now destruct (fsys.node_at fs loc) as [[|]|].
Qed.

Lemma drop_empty_spec (l : list string) :
  exists n, l = repeat EmptyString n ++ fsys.drop_empty l
            /\ match fsys.drop_empty l with
               | [] => True
               | c :: _ => c <> EmptyString
               end.
Proof.
  induction l as [|c l (n & Hl & Hc)]; simpl.
  - now exists 0.
  - destruct (String.eqb_spec c "") as [->|Hne].
    + exists (S n). simpl. now rewrite <- Hl.
    + now exists 0.
Qed.

Lemma rev_repeat_same (x : string) (n : nat) : rev (repeat x n) = repeat x n.
Proof.
  induction n as [|n IH]; [reflexivity|].
  simpl. rewrite IH. symmetry. apply repeat_cons.
Qed.

(** The components of a path, as [mkdir] reads them: the part that
    leads to the parent, the last name, and trailing empty ones. *)
Lemma split_for_mkdir (path last : string) (rinit : list string) :
  fsys.drop_empty (rev (Py.split "/" path)) = last :: rinit ->
  last <> EmptyString
  /\ exists n, Py.split "/" path = rev rinit ++ last :: repeat EmptyString n.
Proof.
  intros Hd. destruct (drop_empty_spec (rev (Py.split "/" path))) as (n & Hl & Hc).
  rewrite Hd in Hl, Hc. split; [assumption|]. exists n.
  apply (f_equal (@rev string)) in Hl. rewrite rev_involutive in Hl. rewrite Hl.
  rewrite rev_app_distr, rev_repeat_same. simpl. now rewrite <- app_assoc.
Qed.

Lemma oserror_classes :
  isinstance fsys.ENOENT OSError = true
  /\ isinstance fsys.ENOTDIR OSError = true
  /\ isinstance fsys.EEXIST OSError = true.
Proof. repeat split. Qed.

Lemma walk_raises_oserror (fs : filesystem) (loc : list string) (comps : list string)
    (e : exc) :
  fsys.walk fs loc comps = Raise e -> e = fsys.ENOENT \/ e = fsys.ENOTDIR.
Proof.
  revert loc. induction comps as [|c comps IH]; intros loc; simpl; [discriminate|].
  destruct (fsys.node_at fs loc) as [[|]|]; [intros [= <-]; auto | | intros [= <-]; auto].
  destruct (_ || _); [apply IH|].
  destruct (String.eqb c ".."); [apply IH|].
  destruct (fs !! (loc ++ [c])); [apply IH | intros [= <-]; auto].
Qed.

(** Every error of [mkdir] is an [OSError]. *)
Lemma mkdir_raises_oserror (fs : filesystem) (cwd : list string) (path : string) (e : exc) :
  fsys.mkdir fs cwd path = Raise e -> isinstance e OSError = true.
Proof.
  unfold fsys.mkdir. destruct (negb (Py.truthy path)); [now intros [= <-]|].
  destruct (fsys.drop_empty _) as [|last rinit]; [now intros [= <-]|].
  destruct (fsys.walk fs _ _) as [ploc|e'] eqn:Hw; simpl.
  - destruct (fsys.node_at fs ploc) as [[|]|]; [now intros [= <-] | | now intros [= <-]].
    destruct (_ || _); [now intros [= <-]|].
    destruct (fs !! (ploc ++ [last])); [now intros [= <-] | discriminate].
  - intros [= <-]. now apply walk_raises_oserror in Hw as [-> | ->].
Qed.

(** [mkdir] on a path that resolves fails. *)
Lemma mkdir_existing (fs : filesystem) (cwd : list string) (path : string) (n : node) :
  fsys.stat fs cwd path = Ok n -> exists e, fsys.mkdir fs cwd path = Raise e.
Proof.
  unfold fsys.stat, fsys.mkdir. destruct (negb (Py.truthy path)); [discriminate|].
  destruct (fsys.walk fs (fsys.start cwd path) (Py.split "/" path)) as [l|] eqn:Hw;
    [|discriminate].
  intros _. destruct (fsys.drop_empty _) as [|last rinit] eqn:Hd; [eauto|].
  apply split_for_mkdir in Hd as (Hlast & k & Hs). rewrite Hs, walk_app in Hw.
  destruct (fsys.walk fs (fsys.start cwd path) (rev rinit)) as [ploc|]; [|discriminate].
  simpl. pose proof (walk_starts_in_dir fs _ _ _ _ Hw) as Hdir. rewrite Hdir.
  destruct (_ || _) eqn:Hdots; [eauto|].
  simpl in Hw. rewrite Hdir in Hw.
  apply orb_false_elim in Hdots as [Hdot Hdotdot].
  apply String.eqb_neq in Hlast. rewrite Hlast, Hdot, Hdotdot in Hw. simpl in Hw.
  destruct (fs !! (ploc ++ [last])); [eauto | discriminate].
Qed.

(** [mkdir] that succeeds adds one directory, which the path then
    names. *)
Lemma mkdir_ok (fs fs' : filesystem) (cwd : list string) (path : string) :
  fsys.mkdir fs cwd path = Ok fs' ->
  fs ⊆ fs' /\ fsys.isdir fs' cwd path = true.
Proof.
  unfold fsys.mkdir. destruct (Py.truthy path) eqn:Htr; [|discriminate]. simpl.
  destruct (fsys.drop_empty _) as [|last rinit] eqn:Hd; [discriminate|].
  apply split_for_mkdir in Hd as (Hlast & k & Hs).
  destruct (fsys.walk fs (fsys.start cwd path) (rev rinit)) as [ploc|] eqn:Hw; [|discriminate].
  simpl. destruct (fsys.node_at fs ploc) as [[|]|] eqn:Hdir; try discriminate.
  destruct (_ || _) eqn:Hdots; [discriminate|].
  destruct (fs !! (ploc ++ [last])) eqn:Hnew; [discriminate|].
  intros [= <-].
  assert (Hsub : fs ⊆ <[ploc ++ [last] := Dir]> fs) by now apply insert_subseteq.
  split; [assumption|].
  unfold fsys.isdir, fsys.stat. rewrite Htr. simpl. rewrite Hs, walk_app.
  rewrite (walk_weaken _ _ _ _ _ Hsub Hw).
  assert (Hchild : fsys.node_at (<[ploc ++ [last] := Dir]> fs) (ploc ++ [last]) = Some Dir).
  { destruct (ploc ++ [last]) eqn:Hl; [now destruct ploc|]. simpl. apply lookup_insert_eq. }
  assert (Hstep : fsys.walk (<[ploc ++ [last] := Dir]> fs) ploc (last :: repeat EmptyString k)
                  = Ok (ploc ++ [last])).
  { simpl. rewrite (node_at_weaken _ _ _ _ Hsub Hdir).
    apply orb_false_elim in Hdots as [Hdot Hdotdot].
    apply String.eqb_neq in Hlast. rewrite Hlast, Hdot, Hdotdot. simpl.
    rewrite lookup_insert_eq. now apply walk_empties. }
  rewrite Hstep. simpl. now rewrite Hchild.
Qed.

End FsFacts.

(** ** [posixpath.split] and the parts [makedirs] works with *)

Module SplitFacts.

Import PyFacts PathFacts.

Lemma cut_spec (p : string) :
  p = fst (posixpath.cut_last_slash p) +:+ snd (posixpath.cut_last_slash p)
  /\ Py.contains "/" (snd (posixpath.cut_last_slash p)) = false
  /\ (fst (posixpath.cut_last_slash p) = EmptyString
      \/ exists h0, fst (posixpath.cut_last_slash p) = h0 +:+ "/").
Proof.
  induction p as [|c r (Hr & Hns & Hh)]; [now repeat split; auto|].
  simpl. destruct (posixpath.cut_last_slash r) as [h t]. simpl in *.
  destruct h as [|x h].
  - simpl in Hr. subst t. destruct (Ascii.eqb_spec c "/") as [->|Hne]; simpl.
    + repeat split; [assumption|]. right. now exists EmptyString.
    + repeat split; [|now left].
      destruct (Ascii.eqb_spec "/" c); [congruence | assumption].
  - simpl. repeat split; [now f_equal | assumption|].
    right. destruct Hh as [Hh | [h0 Hh]]; [discriminate|].
    exists (String c h0). simpl. now f_equal.
Qed.

Lemma rstrip_spec (s : string) :
  exists k, s = posixpath.rstrip_slash s +:+ posixpath.slashes k
            /\ posixpath.endswith_slash (posixpath.rstrip_slash s) = false.
Proof.
  induction s as [|c r (k & Hr & He)]; [now exists 0|].
  simpl. destruct (posixpath.rstrip_slash r) as [|x g] eqn:Hg.
  - simpl in Hr. destruct (Ascii.eqb_spec c "/") as [->|Hne].
    + exists (S k). simpl. now rewrite <- Hr.
    + exists k. simpl. split; [now f_equal|]. now apply Ascii.eqb_neq.
  - exists k. split; [simpl; now f_equal | exact He].
Qed.

Lemma all_slashes_spec (s : string) :
  posixpath.all_slashes s = true -> exists k, s = posixpath.slashes k.
Proof.
  induction s as [|c r IH]; [now exists 0|]. simpl.
  destruct (Ascii.eqb_spec c "/") as [->|]; [|discriminate].
  intros H. destruct (IH H) as [k ->]. now exists (S k).
Qed.

Lemma all_slashes_false (s : string) :
  posixpath.all_slashes s = false -> posixpath.rstrip_slash s <> EmptyString.
Proof.
  induction s as [|c r IH]; [discriminate|]. simpl.
  destruct (posixpath.rstrip_slash r); [|discriminate].
  destruct (Ascii.eqb_spec c "/") as [->|]; [|discriminate].
  simpl. intros H. now apply IH in H.
Qed.

Lemma endswith_slash_slashes (h0 : string) (k : nat) (g : string) :
  h0 +:+ "/" = g +:+ posixpath.slashes k ->
  posixpath.endswith_slash g = false -> exists k', k = S k'.
Proof.
  intros Heq He. destruct k as [|k]; [|eauto].
  simpl in Heq. rewrite append_empty_r in Heq. subst g.
  assert (posixpath.endswith_slash (h0 +:+ "/") = true)
    by (apply endswith_slash_snoc; eauto).
  congruence.
Qed.

(** The three shapes of [split(p)]. *)
Lemma split_shape (p head tail : string) :
  posixpath.split p = (head, tail) ->
  Py.contains "/" tail = false
  /\ ((head = EmptyString /\ p = tail)
      \/ (exists m, head = posixpath.slashes (S m) /\ p = head +:+ tail)
      \/ (exists k, head <> EmptyString
                    /\ p = head +:+ posixpath.slashes (S k) +:+ tail)).
Proof.
  unfold posixpath.split. destruct (cut_spec p) as (Hp & Hns & Hh).
  destruct (posixpath.cut_last_slash p) as [h t]. simpl in *.
  destruct (Py.truthy h) eqn:Htr; simpl.
  - destruct (posixpath.all_slashes h) eqn:Hall; simpl.
    + intros [= <- <-]. split; [assumption|]. right. left.
      apply all_slashes_spec in Hall as [[|m] ->]; [discriminate | eauto].
    + intros [= <- <-]. split; [assumption|]. right. right.
      destruct (rstrip_spec h) as (k & Hk & He).
      destruct Hh as [-> | [h0 Hh0]]; [discriminate|].
      pose proof Hk as Hk2. rewrite Hh0 in Hk2 at 1.
      destruct (endswith_slash_slashes _ _ _ Hk2 He) as [k' ->]. clear Hk2.
      exists k'. split; [now apply all_slashes_false|].
      rewrite Hp at 1. rewrite Hk at 1. now rewrite append_assoc.
  - intros [= <- <-]. split; [assumption|]. left.
    apply truthy_false in Htr. subst h. now split.
Qed.

Lemma split_of_slashes (n : nat) :
  posixpath.split (posixpath.slashes n) = (posixpath.slashes n, EmptyString).
Proof.
  assert (Hcut : posixpath.cut_last_slash (posixpath.slashes n)
                 = (posixpath.slashes n, EmptyString)).
  { induction n as [|n IH]; [reflexivity|]. simpl. rewrite IH.
    destruct n; reflexivity. }
  assert (Hall : posixpath.all_slashes (posixpath.slashes n) = true)
    by (clear Hcut; induction n as [|n IHn]; simpl; [reflexivity | exact IHn]).
  unfold posixpath.split. rewrite Hcut, Hall. now destruct (Py.truthy _).
Qed.

(** The shape of a name in terms of the parts [makedirs] takes. *)
Lemma parts_shape (name head tail : string) :
  fsys.makedirs_parts name = (head, tail) ->
  Py.truthy head = true -> Py.truthy tail = true ->
  Py.contains "/" tail = false
  /\ exists j i,
       name = head +:+ posixpath.slashes j +:+ tail +:+ posixpath.slashes i
       /\ (((exists m, head = posixpath.slashes (S m)) /\ j = 0) \/ exists k, j = S k).
Proof.
  unfold fsys.makedirs_parts.
  destruct (posixpath.split name) as [h1 t1] eqn:H1.
  apply split_shape in H1 as (Hns1 & Hcases).
  destruct (Py.truthy t1) eqn:Ht1; simpl.
  - intros [= <- <-] Hh _. split; [assumption|].
    destruct Hcases as [[-> _] | [(m & Hm & Hp) | (k & _ & Hp)]]; [discriminate | |].
    + exists 0, 0. simpl. rewrite append_empty_r. split; [assumption|]. left. eauto.
    + exists (S k), 0. rewrite append_empty_r. split; [assumption|]. right. eauto.
  - apply truthy_false in Ht1. subst t1. intros H2 Hh Ht.
    destruct Hcases as [[-> ->] | [(m & -> & Hp) | (k & Hh1 & Hp)]].
    + injection H2 as <- <-. discriminate.
    + rewrite split_of_slashes in H2. injection H2 as <- <-. discriminate.
    + rewrite append_empty_r in Hp.
      apply split_shape in H2 as (Hns & [[-> _] | [(m & Hm & Hq) | (k' & _ & Hq)]]);
        [discriminate | |]; (split; [assumption|]).
      * exists 0, (S k). split; [|left; eauto]. rewrite Hp. rewrite Hq at 1.
        simpl posixpath.slashes at 1. now rewrite !append_assoc.
      * exists (S k'), (S k). split; [|right; eauto]. rewrite Hp. rewrite Hq at 1.
        now rewrite !append_assoc.
Qed.

Lemma split_slashes_app (k : nat) (t : string) :
  Py.split "/" (posixpath.slashes k +:+ t) = repeat EmptyString k ++ Py.split "/" t.
Proof.
  induction k as [|k IH]; [reflexivity|].
  change (posixpath.slashes (S k) +:+ t) with (EmptyString +:+ String "/" (posixpath.slashes k +:+ t)).
  rewrite split_app_sep, IH. reflexivity.
Qed.

Lemma split_tail_slashes (t : string) (i : nat) :
  Py.contains "/" t = false ->
  Py.split "/" (t +:+ posixpath.slashes i) = t :: repeat EmptyString i.
Proof.
  intros Hns. destruct i as [|i].
  - simpl. rewrite append_empty_r. now apply split_no_sep.
  - change (posixpath.slashes (S i)) with (String "/" (posixpath.slashes i)).
    rewrite split_app_sep, (split_no_sep _ _ Hns).
    rewrite <- (append_empty_r (posixpath.slashes i)), split_slashes_app. simpl.
    f_equal. symmetry. apply repeat_cons.
Qed.

(** The components of a name: those that lead to the parent, the tail,
    and trailing empty ones. *)
Lemma parts_comps (name head tail : string) :
  fsys.makedirs_parts name = (head, tail) ->
  Py.truthy head = true -> Py.truthy tail = true ->
  Py.startswith "/" name = Py.startswith "/" head
  /\ Py.truthy name = true
  /\ exists dcomps i,
       Py.split "/" name = dcomps ++ tail :: repeat EmptyString i
       /\ ((exists m, dcomps = Py.split "/" head ++ repeat EmptyString m)
           \/ Py.split "/" head = dcomps ++ [EmptyString]).
Proof.
  intros Hparts Hh Ht.
  destruct (parts_shape name head tail Hparts Hh Ht) as (Hns & j & i & Hname & Hj).
  split.
  { rewrite Hname. apply startswith_slash_app. now apply truthy_true. }
  split.
  { rewrite Hname. destruct head; [discriminate | reflexivity]. }
  destruct Hj as [[[m ->] ->] | [k ->]].
  - exists (repeat EmptyString (S m)), i. split.
    + rewrite Hname. simpl posixpath.slashes at 2.
      change (EmptyString +:+ ?x) with x.
      now rewrite split_slashes_app, split_tail_slashes.
    + right. rewrite <- (append_empty_r (posixpath.slashes (S m))), split_slashes_app.
      reflexivity.
  - exists (Py.split "/" head ++ repeat EmptyString k), i. split; [|left; eauto].
    rewrite Hname. change (posixpath.slashes (S k) +:+ ?x) with (String "/" (posixpath.slashes k +:+ x)).
    rewrite split_app_sep, split_slashes_app, split_tail_slashes by assumption.
    now rewrite <- app_assoc.
Qed.

End SplitFacts.

(** ** [os.makedirs] *)

Module MakedirsFacts.

Import PyFacts PathFacts FsFacts SplitFacts.

(** The body of [makedirs], one level of the recursion unfolded. *)
Lemma makedirs_unfold_once (fs : filesystem) (cwd : list string) (name : string) :
  fsys.makedirs fs cwd name =
    if fsys.needs_parent fs cwd name
    then after_parent cwd name (snd (fsys.makedirs_parts name))
           (fsys.makedirs fs cwd (fst (fsys.makedirs_parts name)))
    else fsys.makedirs_leaf fs cwd name.
Proof.
  rewrite fsys.makedirs_unfold_eq.
  unfold fsys.makedirs_unfold, fsys.makedirs_unfold_clause_1, fsys.inspect, after_parent.
  destruct (fsys.needs_parent fs cwd name); reflexivity.
Qed.

Section Leaf.

Variable cwd : list string.

(** When the last statement of [makedirs] succeeds, the directory is
    there and nothing else was lost. *)
Lemma leaf_ok (fs fs' : filesystem) (name : string) :
  fsys.makedirs_leaf fs cwd name = (Ok tt, fs') ->
  fs ⊆ fs' /\ fsys.isdir fs' cwd name = true.
Proof.
  unfold fsys.makedirs_leaf.
  destruct (fsys.mkdir fs cwd name) as [fs1|e] eqn:Hm.
  - intros [= <-]. now apply mkdir_ok.
  - rewrite (mkdir_raises_oserror _ _ _ _ Hm).
    destruct (fsys.isdir fs cwd name) eqn:Hd; simpl; [|discriminate].
    now intros [= <-].
Qed.

Lemma leaf_subseteq (fs fs' : filesystem) (name : string) (r : result unit) :
  fsys.makedirs_leaf fs cwd name = (r, fs') -> fs ⊆ fs'.
Proof.
  unfold fsys.makedirs_leaf.
  destruct (fsys.mkdir fs cwd name) as [fs1|e] eqn:Hm.
  - intros [= _ <-]. now apply mkdir_ok in Hm.
  - destruct (isinstance e OSError); [destruct (negb _)|]; now intros [= _ <-].
Qed.

(** On an existing directory the last statement changes nothing. *)
Lemma leaf_existing (fs : filesystem) (name : string) :
  fsys.isdir fs cwd name = true -> fsys.makedirs_leaf fs cwd name = (Ok tt, fs).
Proof.
  intros Hd. unfold fsys.makedirs_leaf.
  assert (Hs : fsys.stat fs cwd name = Ok Dir).
  { unfold fsys.isdir in Hd. now destruct (fsys.stat fs cwd name) as [[|]|]. }
  destruct (mkdir_existing fs cwd name Dir Hs) as [e He]. rewrite He.
  now rewrite (mkdir_raises_oserror _ _ _ _ He), Hd.
Qed.

End Leaf.

(** [makedirs] only adds entries. *)
Lemma makedirs_subseteq (fs : filesystem) (cwd : list string) (name : string) :
  fs ⊆ snd (fsys.makedirs fs cwd name).
Proof.
  apply (fsys.makedirs_elim (fun fs cwd name res => fs ⊆ snd res)); clear.
  - intros fs cwd name _ IH _. cbv zeta in *.
    destruct (fsys.makedirs fs cwd (fst (fsys.makedirs_parts name))) as [[u|e] fs1].
    + simpl in IH. destruct (String.eqb _ "."); [exact IH|].
      destruct (fsys.makedirs_leaf fs1 cwd name) as [r fs2] eqn:Hl.
      apply leaf_subseteq in Hl. simpl. now transitivity fs1.
    + simpl in IH. destruct (isinstance e FileExistsError); [|exact IH].
      destruct (String.eqb _ "."); [exact IH|].
      destruct (fsys.makedirs_leaf fs1 cwd name) as [r fs2] eqn:Hl.
      apply leaf_subseteq in Hl. simpl. now transitivity fs1.
  - intros fs cwd name _ _.
    destruct (fsys.makedirs_leaf fs cwd name) as [r fs2] eqn:Hl.
    now apply leaf_subseteq in Hl.
Qed.

(** A successful [makedirs] of a name whose last part is not a dot
    leaves the directory in place. *)
Lemma makedirs_ok_isdir (fs fs' : filesystem) (cwd : list string) (name : string) :
  snd (fsys.makedirs_parts name) <> "." ->
  fsys.makedirs fs cwd name = (Ok tt, fs') ->
  fsys.isdir fs' cwd name = true.
Proof.
  intros Htail. rewrite makedirs_unfold_once.
  apply String.eqb_neq in Htail.
  destruct (fsys.needs_parent fs cwd name).
  - unfold after_parent. rewrite Htail.
    destruct (fsys.makedirs fs cwd _) as [[u|e] fs1].
    + intros H. now apply leaf_ok in H.
    + destruct (isinstance e FileExistsError); [|discriminate].
      intros H. now apply leaf_ok in H.
  - intros H. now apply leaf_ok in H.
Qed.

Lemma walk_empties_inv (fs : filesystem) (loc l : list string) (n : nat) :
  fsys.walk fs loc (repeat EmptyString n) = Ok l -> l = loc.
Proof.
  induction n as [|n IH]; simpl; [now intros [= <-]|].
  destruct (fsys.node_at fs loc) as [[|]|]; [discriminate | exact IH | discriminate].
Qed.

(** The components that lead to the parent resolve as [head] does. *)
Lemma parent_walk (fs : filesystem) (loc r : list string) (dcomps : list string)
    (head : string) :
  (exists m, dcomps = Py.split "/" head ++ repeat EmptyString m)
  \/ Py.split "/" head = dcomps ++ [EmptyString] ->
  fsys.node_at fs r = Some Dir ->
  fsys.walk fs loc dcomps = Ok r <-> fsys.walk fs loc (Py.split "/" head) = Ok r.
Proof.
  intros [[m ->] | ->] Hdir; rewrite walk_app.
  - destruct (fsys.walk fs loc (Py.split "/" head)) as [r'|]; [|split; discriminate].
    split.
    + intros H. apply walk_empties_inv in H. now subst.
    + intros [= ->]. now apply walk_empties.
  - destruct (fsys.walk fs loc dcomps) as [r'|]; [|split; discriminate].
    split.
    + intros [= ->]. simpl. now rewrite Hdir.
    + simpl. destruct (fsys.node_at fs r') as [[|]|]; try discriminate. trivial.
Qed.

(** A name that resolves has a parent that resolves. *)
Lemma resolved_needs_no_parent (fs : filesystem) (cwd : list string) (name : string)
    (n : node) :
  fsys.stat fs cwd name = Ok n -> fsys.needs_parent fs cwd name = false.
Proof.
  intros Hs. unfold fsys.needs_parent.
  destruct (fsys.makedirs_parts name) as [head tail] eqn:Hparts.
  destruct (Py.truthy head) eqn:Hh; [|reflexivity].
  destruct (Py.truthy tail) eqn:Ht; [|reflexivity]. simpl.
  destruct (parts_comps name head tail Hparts Hh Ht)
    as (Habs & _ & dcomps & i & Hsplit & Hrel).
  unfold fsys.stat in Hs. destruct (negb (Py.truthy name)); [discriminate|].
  unfold fsys.start, posixpath.isabs in Hs. rewrite Hsplit, Habs, walk_app in Hs.
  destruct (fsys.walk fs _ dcomps) as [r|] eqn:Hr; [|discriminate].
  destruct (fsys.walk fs r (tail :: repeat EmptyString i)) as [l|] eqn:Hl; [|discriminate].
  pose proof (walk_starts_in_dir fs _ _ _ _ Hl) as Hdir.
  apply (parent_walk fs _ r dcomps head Hrel Hdir) in Hr.
  unfold fsys.exists_, fsys.stat, fsys.start, posixpath.isabs.
  rewrite Hh. cbn [negb]. rewrite Hr. cbn [bind]. now rewrite Hdir.
Qed.

(** On an existing directory [makedirs] raises nothing and changes
    nothing. *)
Lemma makedirs_existing (fs : filesystem) (cwd : list string) (name : string) :
  fsys.isdir fs cwd name = true -> fsys.makedirs fs cwd name = (Ok tt, fs).
Proof.
  intros Hd. rewrite makedirs_unfold_once.
  assert (Hs : fsys.stat fs cwd name = Ok Dir).
  { unfold fsys.isdir in Hd. now destruct (fsys.stat fs cwd name) as [[|]|]. }
  rewrite (resolved_needs_no_parent fs cwd name Dir Hs).
  now apply leaf_existing.
Qed.

(** Running [makedirs] again after a success changes nothing. *)
Lemma makedirs_twice (fs fs' : filesystem) (cwd : list string) (name : string) :
  snd (fsys.makedirs_parts name) <> "." ->
  fsys.makedirs fs cwd name = (Ok tt, fs') ->
  fsys.makedirs fs' cwd name = (Ok tt, fs').
Proof.
  intros Htail H. apply makedirs_existing. now apply (makedirs_ok_isdir fs).
Qed.

(** *** Creating a chain of directories *)

Lemma drop_empty_repeat (i : nat) (c : string) (l : list string) :
  c <> EmptyString -> fsys.drop_empty (repeat EmptyString i ++ c :: l) = c :: l.
Proof.
  intros Hc. induction i as [|i IH]; simpl.
  - apply String.eqb_neq in Hc. now rewrite Hc.
  - exact IH.
Qed.

Section Create.

Variable cwd : list string.

(** [mkdir] of a name whose parent resolves to the directory [r] and
    whose last component is the plain name [tail]. *)
Lemma mkdir_plain_tail (fs : filesystem) (name tail : string) (dcomps : list string)
    (i : nat) (r : list string) :
  Py.truthy name = true ->
  Py.split "/" name = dcomps ++ tail :: repeat EmptyString i ->
  plain tail ->
  fsys.walk fs (fsys.start cwd name) dcomps = Ok r ->
  fsys.node_at fs r = Some Dir ->
  fsys.mkdir fs cwd name =
    match fs !! (r ++ [tail]) with
    | Some _ => Raise fsys.EEXIST
    | None => Ok (<[r ++ [tail] := Dir]> fs)
    end.
Proof.
  intros Hname Hsplit Hplain Hr Hdir. unfold fsys.mkdir. rewrite Hname, Hsplit.
  cbn [negb]. rewrite rev_app_distr. simpl rev. rewrite rev_repeat_same, <- app_assoc.
  simpl app. rewrite drop_empty_repeat by apply Hplain.
  rewrite rev_involutive, Hr. cbn [bind]. rewrite Hdir.
  destruct Hplain as (_ & Hdot & Hdotdot & _).
  apply String.eqb_neq in Hdot, Hdotdot. now rewrite Hdot, Hdotdot.
Qed.

(** The last statement of [makedirs] then leaves a directory there,
    new or old. *)
Lemma leaf_creates (fs : filesystem) (name tail : string) (dcomps : list string)
    (i : nat) (r : list string) :
  Py.truthy name = true ->
  Py.split "/" name = dcomps ++ tail :: repeat EmptyString i ->
  plain tail ->
  fsys.walk fs (fsys.start cwd name) dcomps = Ok r ->
  fsys.node_at fs r = Some Dir ->
  fs !! (r ++ [tail]) = None \/ fs !! (r ++ [tail]) = Some Dir ->
  fsys.makedirs_leaf fs cwd name = (Ok tt, <[r ++ [tail] := Dir]> fs).
Proof.
  intros Hname Hsplit Hplain Hr Hdir Hfree. unfold fsys.makedirs_leaf.
  rewrite (mkdir_plain_tail fs name tail dcomps i r) by assumption.
  destruct Hfree as [-> | Hthere]; [reflexivity|]. rewrite Hthere.
  change (isinstance fsys.EEXIST OSError) with true. cbv iota.
  assert (Hisdir : fsys.isdir fs cwd name = true).
  { unfold fsys.isdir, fsys.stat. rewrite Hname, Hsplit, walk_app, Hr. cbn [negb bind].
    rewrite walk_plain_step, Hdir, Hthere by assumption.
    assert (Hn : fsys.node_at fs (r ++ [tail]) = Some Dir).
    { destruct (r ++ [tail]) eqn:Hl; [now destruct r | exact Hthere]. }
    rewrite (walk_empties fs _ i Hn). cbn [bind]. now rewrite Hn. }
  rewrite Hisdir. cbn [negb]. now rewrite insert_id.
Qed.

End Create.

(** *** Paths made of plain names *)

Lemma join_snoc (cs : list string) (c : string) :
  cs <> [] -> Py.join "/" (cs ++ [c]) = Py.join "/" cs +:+ "/" +:+ c.
Proof.
  induction cs as [|x cs IH]; [contradiction|]. intros _.
  destruct cs as [|y cs]; [reflexivity|].
  change ((x :: y :: cs) ++ [c]) with (x :: y :: (cs ++ [c])).
  rewrite (join_cons "/" x y (cs ++ [c])).
  change (y :: cs ++ [c]) with ((y :: cs) ++ [c]).
  rewrite IH by discriminate. rewrite (join_cons "/" x y cs).
  now rewrite !append_assoc.
Qed.

Lemma no_slash_relative (c : string) :
  Py.contains "/" c = false -> Py.startswith "/" c = false.
Proof. destruct c as [|a c]; [reflexivity|]. simpl. now destruct (Ascii.eqb "/" a). Qed.

Lemma no_slash_endswith (s : string) :
  Py.contains "/" s = false -> posixpath.endswith_slash s = false.
Proof.
  induction s as [|a s IH]; [reflexivity|]. simpl.
  rewrite (Ascii.eqb_sym "/" a). destruct (Ascii.eqb a "/"); [discriminate|].
  destruct s; [reflexivity | exact IH].
Qed.

Lemma join_plain_facts (cs : list string) :
  cs <> [] -> Forall plain cs ->
  Py.truthy (Py.join "/" cs) = true
  /\ Py.startswith "/" (Py.join "/" cs) = false
  /\ posixpath.endswith_slash (Py.join "/" cs) = false.
Proof.
  intros Hne Hall. split; [|split].
  - destruct Hall as [|c cs Hc _]; [contradiction|]. now apply Serving.join_plain_truthy.
  - now apply join_plain_relative.
  - induction cs as [|c cs IH] using rev_ind; [contradiction|].
    apply Forall_app in Hall as [Hcs Hc]. inversion Hc as [|? ? (Hc1 & _ & _ & Hc4) _]; subst.
    destruct cs as [|x cs].
    + simpl. now apply no_slash_endswith.
    + rewrite join_snoc by discriminate.
      rewrite <- append_assoc, endswith_slash_app by assumption.
      now apply no_slash_endswith.
Qed.

Lemma cut_no_slash (t : string) :
  Py.contains "/" t = false -> posixpath.cut_last_slash t = (EmptyString, t).
Proof.
  induction t as [|a t IH]; [reflexivity|]. simpl.
  rewrite (Ascii.eqb_sym "/" a). destruct (Ascii.eqb a "/"); [discriminate|].
  intros H. now rewrite (IH H).
Qed.

Lemma cut_snoc (a t : string) :
  Py.contains "/" t = false ->
  posixpath.cut_last_slash (a +:+ String "/" t) = (a +:+ "/", t).
Proof.
  intros Ht. induction a as [|x a IH].
  - simpl. now rewrite (cut_no_slash t Ht).
  - simpl. rewrite IH. now destruct a.
Qed.

Lemma rstrip_snoc (g : string) :
  posixpath.endswith_slash g = false -> posixpath.rstrip_slash (g +:+ "/") = g.
Proof.
  induction g as [|x g IH]; [reflexivity|]. intros He.
  simpl. destruct g as [|y g].
  - simpl in *. now rewrite He.
  - rewrite IH by exact He. reflexivity.
Qed.

Lemma all_slashes_relative (g s : string) :
  g <> EmptyString -> Py.startswith "/" g = false -> posixpath.all_slashes (g +:+ s) = false.
Proof.
  destruct g as [|x g]; [contradiction|]. intros _. simpl.
  rewrite (Ascii.eqb_sym "/" x). now destruct (Ascii.eqb x "/").
Qed.

(** *** Paths of plain names, relative or absolute *)

Section Chain.

Variable absolute : bool.
Variable cs : list string.
Hypothesis cs_nonempty : cs <> [].
Hypothesis cs_plain : Forall plain cs.

Lemma chain_path_truthy : Py.truthy (chain_path absolute cs) = true.
Proof.
  unfold chain_path. apply truthy_app. now apply (join_plain_facts cs).
Qed.

Lemma chain_path_isabs : Py.startswith "/" (chain_path absolute cs) = absolute.
Proof.
  unfold chain_path. destruct absolute; [reflexivity|].
  now apply (join_plain_facts cs).
Qed.

Lemma chain_path_start (cwd : list string) :
  fsys.start cwd (chain_path absolute cs) = chain_origin cwd absolute.
Proof. unfold fsys.start, posixpath.isabs. now rewrite chain_path_isabs. Qed.

Lemma chain_path_endswith : posixpath.endswith_slash (chain_path absolute cs) = false.
Proof.
  unfold chain_path. destruct (join_plain_facts cs cs_nonempty cs_plain) as (Htr & _ & He).
  rewrite endswith_slash_app; [exact He | now apply truthy_true].
Qed.

Lemma chain_path_not_all_slashes (s : string) :
  posixpath.all_slashes (chain_path absolute cs +:+ s) = false.
Proof.
  unfold chain_path. destruct (join_plain_facts cs cs_nonempty cs_plain) as (Htr & Hrel & _).
  destruct absolute.
  - change (("/" +:+ Py.join "/" cs) +:+ s) with (String "/" (Py.join "/" cs +:+ s)).
    simpl. apply all_slashes_relative; [now apply truthy_true | assumption].
  - apply all_slashes_relative; [now apply truthy_true | assumption].
Qed.

Lemma chain_path_split :
  Py.split "/" (chain_path absolute cs) = (if absolute then [EmptyString] else []) ++ cs.
Proof.
  assert (Hs : Py.split "/" (Py.join "/" cs) = cs)
    by (apply split_join; [assumption | now apply plain_no_slash]).
  unfold chain_path. destruct absolute; [|exact Hs].
  change ("/" +:+ Py.join "/" cs) with (EmptyString +:+ String "/" (Py.join "/" cs)).
  now rewrite split_app_sep, Hs.
Qed.

(** Resolving the path is following the names from the origin. *)
Lemma chain_path_walk (fs : filesystem) (cwd : list string) :
  fsys.walk fs (chain_origin cwd absolute) (Py.split "/" (chain_path absolute cs))
  = fsys.walk fs (chain_origin cwd absolute) cs.
Proof.
  rewrite chain_path_split. destruct absolute; [|reflexivity].
  destruct cs; [contradiction | reflexivity].
Qed.

Lemma chain_path_snoc (c : string) :
  chain_path absolute (cs ++ [c]) = chain_path absolute cs +:+ "/" +:+ c.
Proof. unfold chain_path. rewrite join_snoc by assumption. now rewrite append_assoc. Qed.

Lemma parts_chain_snoc (c : string) :
  plain c ->
  fsys.makedirs_parts (chain_path absolute (cs ++ [c])) = (chain_path absolute cs, c).
Proof.
  intros (Hc & _ & _ & Hns).
  rewrite chain_path_snoc. unfold fsys.makedirs_parts, posixpath.split.
  change ("/" +:+ c) with (String "/" c). rewrite (cut_snoc _ c Hns).
  rewrite truthy_app by reflexivity. rewrite chain_path_not_all_slashes.
  cbn [negb andb]. rewrite (rstrip_snoc _ chain_path_endswith).
  apply truthy_true in Hc. now rewrite Hc.
Qed.

End Chain.

Lemma parts_chain_one (absolute : bool) (c : string) :
  plain c ->
  fsys.makedirs_parts (chain_path absolute [c]) = (if absolute then "/" else "", c).
Proof.
  intros (Hne & _ & _ & Hns). apply truthy_true in Hne.
  unfold chain_path, fsys.makedirs_parts, posixpath.split. destruct absolute.
  - change ("/" +:+ Py.join "/" [c]) with (EmptyString +:+ String "/" c).
    rewrite (cut_snoc "" c Hns). simpl. now rewrite Hne.
  - change ("" +:+ Py.join "/" [c]) with c.
    rewrite (cut_no_slash c Hns). simpl. now rewrite Hne.
Qed.

Lemma root_exists (fs : filesystem) (cwd : list string) : fsys.exists_ fs cwd "/" = true.
Proof. reflexivity. Qed.

(** *** The chain of directories *)

Lemma add_dirs_snoc (fs : filesystem) (base : list string) (cs : list string) (c : string) :
  add_dirs fs base (cs ++ [c]) = <[base ++ cs ++ [c] := Dir]> (add_dirs fs base cs).
Proof.
  revert fs base. induction cs as [|x cs IH]; intros fs base; simpl; [reflexivity|].
  rewrite IH. now rewrite <- app_assoc.
Qed.

Lemma clear_way_snoc (fs : filesystem) (base : list string) (cs : list string) (c : string) :
  clear_way fs base (cs ++ [c]) <->
  clear_way fs base cs
  /\ (fs !! (base ++ cs ++ [c]) = None \/ fs !! (base ++ cs ++ [c]) = Some Dir).
Proof.
  revert base. induction cs as [|x cs IH]; intros base; simpl.
  - tauto.
  - rewrite IH, <- app_assoc. simpl. tauto.
Qed.

(** [add_dirs] sets entries to directories and touches nothing else. *)
Lemma add_dirs_lookup (fs : filesystem) (base : list string) (cs : list string)
    (loc : list string) :
  add_dirs fs base cs !! loc = Some Dir \/ add_dirs fs base cs !! loc = fs !! loc.
Proof.
  revert fs base. induction cs as [|c cs IH]; intros fs base; simpl; [now right|].
  destruct (IH (<[base ++ [c] := Dir]> fs) (base ++ [c])) as [H | H]; [now left|].
  rewrite H. destruct (decide (base ++ [c] = loc)) as [<-|Hne].
  - left. apply lookup_insert_eq.
  - right. now apply lookup_insert_ne.
Qed.

Lemma add_dirs_keeps_dir (fs : filesystem) (base : list string) (cs : list string)
    (loc : list string) :
  fsys.node_at fs loc = Some Dir -> fsys.node_at (add_dirs fs base cs) loc = Some Dir.
Proof.
  destruct loc as [|x loc]; [trivial|]. simpl. intros H.
  destruct (add_dirs_lookup fs base cs (x :: loc)) as [H' | H']; congruence.
Qed.

Lemma add_dirs_walk (fs : filesystem) (base : list string) (cs : list string) :
  Forall plain cs -> fsys.node_at fs base = Some Dir ->
  fsys.walk (add_dirs fs base cs) base cs = Ok (base ++ cs)
  /\ fsys.node_at (add_dirs fs base cs) (base ++ cs) = Some Dir.
Proof.
  intros Hall. revert fs base. induction Hall as [|c cs Hc _ IH]; intros fs base Hdir.
  - simpl. now rewrite app_nil_r.
  - simpl add_dirs. set (fs1 := <[base ++ [c] := Dir]> fs).
    assert (Hc1 : fsys.node_at fs1 (base ++ [c]) = Some Dir).
    { destruct (base ++ [c]) eqn:Hl; [now destruct base|]. apply lookup_insert_eq. }
    destruct (IH fs1 (base ++ [c]) Hc1) as [Hw Hn].
    rewrite <- app_assoc in Hw, Hn. simpl in Hw, Hn. split; [|exact Hn].
    rewrite walk_plain_step by assumption.
    assert (Hbase : fsys.node_at fs1 base = Some Dir).
    { destruct base as [|b base]; [reflexivity|]. simpl. unfold fs1.
      rewrite lookup_insert_ne; [exact Hdir|].
      intros Heq. apply (f_equal (@length string)) in Heq.
      rewrite length_app in Heq. simpl in Heq. lia. }
    rewrite (add_dirs_keeps_dir fs1 (base ++ [c]) cs base Hbase).
    pose proof (add_dirs_keeps_dir fs1 (base ++ [c]) cs (base ++ [c]) Hc1) as Hc2.
    destruct (base ++ [c]) eqn:Hl; [now destruct base|]. simpl in Hc2. now rewrite Hc2.
Qed.

(** A chain that is there already is left as it is. *)
Lemma existing_chain (fs : filesystem) (base l : list string) (cs : list string) :
  Forall plain cs -> clear_way fs base cs ->
  fsys.node_at fs base = Some Dir ->
  fsys.walk fs base cs = Ok l ->
  add_dirs fs base cs = fs /\ l = base ++ cs /\ fsys.node_at fs l = Some Dir.
Proof.
  intros Hall. revert base. induction Hall as [|c cs Hc _ IH]; intros base Hclear Hdir.
  - simpl. intros [= <-]. now rewrite app_nil_r.
  - destruct Hclear as [Hfree Hclear]. rewrite walk_plain_step, Hdir by assumption.
    destruct (fs !! (base ++ [c])) as [n|] eqn:Hn; [|discriminate].
    assert (n = Dir) as -> by (destruct Hfree; congruence).
    intros Hw. simpl add_dirs. rewrite insert_id by assumption.
    assert (Hc1 : fsys.node_at fs (base ++ [c]) = Some Dir).
    { destruct (base ++ [c]) eqn:Hl; [now destruct base | exact Hn]. }
    destruct (IH (base ++ [c]) Hclear Hc1 Hw) as (Ha & Hl & Hd).
    rewrite <- app_assoc in Hl. now repeat split.
Qed.

(** [makedirs] of a path of plain names, relative or absolute, makes
    every directory of the chain that is missing, when nothing but
    directories stands in the way. *)
Lemma makedirs_creates (cwd : list string) (absolute : bool) (cs : list string)
    (fs : filesystem) :
  cs <> [] -> Forall plain cs ->
  fsys.node_at fs (chain_origin cwd absolute) = Some Dir ->
  clear_way fs (chain_origin cwd absolute) cs ->
  fsys.makedirs fs cwd (chain_path absolute cs)
  = (Ok tt, add_dirs fs (chain_origin cwd absolute) cs).
Proof.
  set (origin := chain_origin cwd absolute).
  revert fs. induction cs as [|c cs IH] using rev_ind; [contradiction|].
  intros fs _ Hall Hdir Hclear.
  apply Forall_app in Hall as [Hcs Hc]. inversion Hc as [|? ? Hplain _]; subst.
  apply clear_way_snoc in Hclear as [Hclear Hfree].
  assert (Htc : Py.truthy c = true) by (apply truthy_true, Hplain).
  rewrite makedirs_unfold_once, add_dirs_snoc.
  destruct cs as [|x cs'].
  - (* a single name *)
    assert (Hone : [c] <> []) by discriminate.
    assert (Hc1 : Forall plain [c]) by (constructor; [assumption | constructor]).
    assert (Hnp : fsys.needs_parent fs cwd (chain_path absolute [c]) = false).
    { unfold fsys.needs_parent. rewrite (parts_chain_one absolute c Hplain).
      destruct absolute; [|reflexivity]. now rewrite Htc, root_exists. }
    change ([] ++ [c]) with [c]. rewrite Hnp.
    apply (leaf_creates cwd fs _ c (if absolute then [EmptyString] else []) 0 origin);
      try assumption.
    + now apply chain_path_truthy.
    + now rewrite chain_path_split.
    + rewrite chain_path_start by assumption. fold origin.
      unfold origin, chain_origin. now destruct absolute.
  - assert (Hne : x :: cs' <> []) by discriminate.
    remember (x :: cs') as cs eqn:Heqcs. clear Heqcs x cs'.
    pose proof (chain_path_truthy absolute cs Hne Hcs) as Htr.
    pose proof (parts_chain_snoc absolute cs Hne Hcs c Hplain) as Hparts.
    destruct (parts_comps _ _ _ Hparts Htr Htc) as (Habs & Hname & dcomps & i & Hsplit & Hrelc).
    assert (Hstart : fsys.start cwd (chain_path absolute (cs ++ [c])) = origin).
    { unfold fsys.start, posixpath.isabs. rewrite Habs.
      now rewrite (chain_path_isabs absolute cs Hne Hcs). }
    assert (Hleaf : forall fs1,
               fsys.walk fs1 origin cs = Ok (origin ++ cs) ->
               fsys.node_at fs1 (origin ++ cs) = Some Dir ->
               fs1 !! (origin ++ cs ++ [c]) = None \/ fs1 !! (origin ++ cs ++ [c]) = Some Dir ->
               fsys.makedirs_leaf fs1 cwd (chain_path absolute (cs ++ [c]))
               = (Ok tt, <[origin ++ cs ++ [c] := Dir]> fs1)).
    { intros fs1 Hw Hn Hf.
      rewrite (leaf_creates cwd fs1 _ c dcomps i (origin ++ cs)); try assumption.
      - now rewrite <- app_assoc.
      - rewrite Hstart.
        apply (parent_walk fs1 origin _ dcomps (chain_path absolute cs) Hrelc Hn).
        unfold origin. now rewrite chain_path_walk.
      - now rewrite <- app_assoc. }
    unfold fsys.needs_parent. rewrite Hparts, Htr, Htc. cbn [fst snd andb].
    destruct (fsys.exists_ fs cwd (chain_path absolute cs)) eqn:Hex; cbn [negb].
    + (* the parent is there *)
      unfold fsys.exists_, fsys.stat in Hex. rewrite Htr in Hex. cbn [negb] in Hex.
      rewrite chain_path_start, chain_path_walk in Hex by assumption. fold origin in Hex.
      destruct (fsys.walk fs origin cs) as [l|] eqn:Hw; [|discriminate].
      destruct (existing_chain fs origin l cs Hcs Hclear Hdir Hw) as (-> & -> & Hn).
      now apply Hleaf.
    + (* the parent is made first *)
      rewrite (IH fs Hne Hcs Hdir Hclear). unfold after_parent.
      assert (Hnd : String.eqb c "." = false) by (apply String.eqb_neq, Hplain).
      rewrite Hnd.
      destruct (add_dirs_walk fs origin cs Hcs Hdir) as [Hw Hn].
      apply Hleaf; [assumption..|].
      destruct (add_dirs_lookup fs origin cs (origin ++ cs ++ [c])) as [H | H];
        [now right | now rewrite H].
Qed.

End MakedirsFacts.

(** ** The directories ensured at startup *)

Module StartupFacts.

Import PyFacts PathFacts FsFacts SplitFacts MakedirsFacts.

Lemma clear_way_add_dirs (fs : filesystem) (b base : list string) (cs' cs : list string) :
  clear_way fs base cs -> clear_way (add_dirs fs b cs') base cs.
Proof.
  revert base. induction cs as [|c cs IH]; intros base; simpl; [trivial|].
  intros [Hfree Hclear]. split; [|now apply IH].
  destruct (add_dirs_lookup fs b cs' (base ++ [c])) as [H | H]; [now right | now rewrite H].
Qed.

(** A chain of directories that is there makes its path a directory. *)
Lemma isdir_of_chain (fs : filesystem) (cwd : list string) (absolute : bool)
    (cs : list string) :
  cs <> [] -> Forall plain cs ->
  fsys.walk fs (chain_origin cwd absolute) cs = Ok (chain_origin cwd absolute ++ cs) ->
  fsys.node_at fs (chain_origin cwd absolute ++ cs) = Some Dir ->
  fsys.isdir fs cwd (chain_path absolute cs) = true.
Proof.
  intros Hne Hall Hw Hn. unfold fsys.isdir, fsys.stat.
  rewrite chain_path_truthy, chain_path_start, chain_path_walk by assumption.
  cbn [negb]. rewrite Hw. cbn [bind]. now rewrite Hn.
Qed.

Lemma makedirs_result (fs : filesystem) (cwd : list string) (name : string) :
  fsys.makedirs fs cwd name
  = (fst (fsys.makedirs fs cwd name), snd (fsys.makedirs fs cwd name)).
Proof. now destruct (fsys.makedirs fs cwd name). Qed.

End StartupFacts.

(** C9, the claim as stated, fails at the upload directory setting
    [a/../f/.] in an application directory that holds the regular file
    [f] and no entry [a].  The first run returns: [makedirs] makes [a],
    fails to make [a/../f], drops that [FileExistsError], and returns at
    once because the last component is a dot.  The directory was not
    made ([a/../f/.] is no directory afterwards), and the second run
    raises [NotADirectoryError]: twice is not once. *)
Lemma second_run_fails_after_first_returned :
  let cfg := app_config {["UPLOAD_DIR" := "a/../f/."]} example_cwd in
  let fs := <[["srv"; "app"; "f"] := File "x"]> fresh_fs in
  let fs1 := snd (ensure_dirs cfg fs example_cwd) in
  fst (ensure_dirs cfg fs example_cwd) = Ok tt
  /\ fs1 !! ["srv"; "app"; "a"] = Some Dir
  /\ fsys.isdir fs1 example_cwd (UPLOAD_DIR cfg) = false
  /\ exists e, fst (ensure_dirs cfg fs1 example_cwd) = Raise e
               /\ exc_cls e = NotADirectoryError.
Proof.
  cbv zeta. split; [|split; [|split]].
  - vm_compute. reflexivity.
  - vm_compute. reflexivity.
  - vm_compute. reflexivity.
  - exists fsys.ENOTDIR. split; [vm_compute|]; reflexivity.
Qed.

(** C9, amended: the two [os.makedirs(..., exist_ok=True)] calls of
    [create_app].  When both directories exist they raise nothing and
    leave the file system as it is.  When the two paths are made of plain
    names, relative or absolute, and nothing but directories stands in
    their way, the calls make every missing directory of both chains,
    parents included, and both paths are directories afterwards.  And
    after a run that returned, for paths whose last component is not a
    dot, both paths are directories and a second run raises nothing and
    changes nothing: twice is once. *)
Theorem ensure_dirs_idempotent (cfg : Config) (fs : filesystem) (cwd : list string) :
  (fsys.isdir fs cwd (UPLOAD_DIR cfg) = true ->
   fsys.isdir fs cwd (CERT_DIR cfg) = true ->
   ensure_dirs cfg fs cwd = (Ok tt, fs))
  /\ (forall uabs ups cabs certs,
        UPLOAD_DIR cfg = chain_path uabs ups -> CERT_DIR cfg = chain_path cabs certs ->
        ups <> [] -> certs <> [] -> Forall plain ups -> Forall plain certs ->
        fsys.node_at fs cwd = Some Dir ->
        clear_way fs (chain_origin cwd uabs) ups ->
        clear_way fs (chain_origin cwd cabs) certs ->
        let fs' := add_dirs (add_dirs fs (chain_origin cwd uabs) ups)
                     (chain_origin cwd cabs) certs in
        ensure_dirs cfg fs cwd = (Ok tt, fs')
        /\ fsys.isdir fs' cwd (UPLOAD_DIR cfg) = true
        /\ fsys.isdir fs' cwd (CERT_DIR cfg) = true)
  /\ (forall fs',
        snd (fsys.makedirs_parts (UPLOAD_DIR cfg)) <> "." ->
        snd (fsys.makedirs_parts (CERT_DIR cfg)) <> "." ->
        ensure_dirs cfg fs cwd = (Ok tt, fs') ->
        fsys.isdir fs' cwd (UPLOAD_DIR cfg) = true
        /\ fsys.isdir fs' cwd (CERT_DIR cfg) = true
        /\ ensure_dirs cfg fs' cwd = (Ok tt, fs')).
Proof.
  split; [|split].
  - intros Hup Hcert. unfold ensure_dirs.
    rewrite (MakedirsFacts.makedirs_existing fs cwd _ Hup).
    now apply MakedirsFacts.makedirs_existing.
  - intros uabs ups cabs certs Hu Hc Hune Hcne Huplain Hcplain Hdir Huway Hcway fs'.
    set (fs1 := add_dirs fs (chain_origin cwd uabs) ups) in *.
    assert (Horigin : forall absolute f, fsys.node_at f cwd = Some Dir ->
                        fsys.node_at f (chain_origin cwd absolute) = Some Dir)
      by (intros [|] f H; [reflexivity | exact H]).
    assert (H1 : fsys.makedirs fs cwd (UPLOAD_DIR cfg) = (Ok tt, fs1))
      by (rewrite Hu; apply MakedirsFacts.makedirs_creates; auto).
    assert (Hdir1 : fsys.node_at fs1 cwd = Some Dir)
      by now apply MakedirsFacts.add_dirs_keeps_dir.
    assert (H2 : fsys.makedirs fs1 cwd (CERT_DIR cfg) = (Ok tt, fs')).
    { rewrite Hc. apply MakedirsFacts.makedirs_creates; auto.
      now apply StartupFacts.clear_way_add_dirs. }
    split; [|split].
    + unfold ensure_dirs. now rewrite H1.
    + apply (FsFacts.isdir_weaken fs1 fs').
      * pose proof (MakedirsFacts.makedirs_subseteq fs1 cwd (CERT_DIR cfg)) as Hsub.
        now rewrite H2 in Hsub.
      * rewrite Hu.
        destruct (MakedirsFacts.add_dirs_walk fs _ ups Huplain (Horigin uabs fs Hdir)).
        now apply StartupFacts.isdir_of_chain.
    + rewrite Hc.
      destruct (MakedirsFacts.add_dirs_walk fs1 _ certs Hcplain (Horigin cabs fs1 Hdir1)).
      now apply StartupFacts.isdir_of_chain.
  - intros fs' Hutail Hctail. unfold ensure_dirs.
    destruct (fsys.makedirs fs cwd (UPLOAD_DIR cfg)) as [[[]|e] fs1] eqn:H1; [|discriminate].
    intros H2.
    pose proof (MakedirsFacts.makedirs_ok_isdir fs fs1 cwd _ Hutail H1) as Hup1.
    pose proof (MakedirsFacts.makedirs_ok_isdir fs1 fs' cwd _ Hctail H2) as Hcert.
    assert (Hup : fsys.isdir fs' cwd (UPLOAD_DIR cfg) = true).
    { apply (FsFacts.isdir_weaken fs1 fs'); [|assumption].
      pose proof (MakedirsFacts.makedirs_subseteq fs1 cwd (CERT_DIR cfg)) as Hsub.
      now rewrite H2 in Hsub. }
    split; [assumption|]. split; [assumption|].
    rewrite (MakedirsFacts.makedirs_existing fs' cwd _ Hup).
    now apply MakedirsFacts.makedirs_existing.
Qed.

Lemma ensure_dirs_idempotent_witness :
  let cfg := app_config ∅ example_cwd in
  let fs' := add_dirs (add_dirs fresh_fs example_cwd ["uploads"]) example_cwd ["certs"] in
  ensure_dirs cfg fresh_fs example_cwd = (Ok tt, fs')
  /\ ensure_dirs cfg fs' example_cwd = (Ok tt, fs')
  /\ ensure_dirs cfg example_fs example_cwd = (Ok tt, example_fs).
Proof.
  assert (Hplain : forall c, (c = "uploads" \/ c = "certs") -> plain c).
  { intros c [-> | ->]; repeat split; discriminate. }
  pose proof (ensure_dirs_idempotent (app_config ∅ example_cwd) fresh_fs example_cwd)
    as (_ & Hmake & _).
  destruct (Hmake false ["uploads"] false ["certs"] eq_refl eq_refl) as (Hrun & _ & _).
  1-2: discriminate.
  1-2: constructor; [apply Hplain; auto | constructor].
  1: reflexivity.
  1-2: split; [now left | exact I].
  pose proof (ensure_dirs_idempotent (app_config ∅ example_cwd)
                (add_dirs (add_dirs fresh_fs example_cwd ["uploads"]) example_cwd ["certs"])
                example_cwd) as (Hagain & _ & _).
  pose proof (ensure_dirs_idempotent (app_config ∅ example_cwd) example_fs example_cwd)
    as (Hthere & _ & _).
  split; [exact Hrun|]. split; [exact (Hagain eq_refl eq_refl) | exact (Hthere eq_refl eq_refl)].
Defined.

(** The example application is the one [create_app] builds in the
    example installation, whose directories exist already. *)
Example create_app_example :
  create_app ∅ example_cwd "/srv/app" example_fs = (Ok example_app, example_fs).
Proof. vm_compute. reflexivity. Qed.

(** ** More about start-up *)

Module StartupMore.

Import PyFacts PathFacts FsFacts SplitFacts MakedirsFacts.

Lemma only_adds_dirs_refl (fs : filesystem) : only_adds_dirs fs fs.
Proof. intros loc. now left. Qed.

Lemma only_adds_dirs_trans (fs1 fs2 fs3 : filesystem) :
  only_adds_dirs fs1 fs2 -> only_adds_dirs fs2 fs3 -> only_adds_dirs fs1 fs3.
Proof.
  intros H12 H23 loc. destruct (H12 loc) as [H|[H H']], (H23 loc) as [K|[K K']].
  - left. congruence.
  - right. split; congruence.
  - right. split; congruence.
  - congruence.
Qed.

Lemma only_adds_dirs_subseteq (fs fs' : filesystem) : only_adds_dirs fs fs' -> fs ⊆ fs'.
Proof.
  intros H. apply map_subseteq_spec. intros loc n Hn.
  destruct (H loc) as [K|[K _]]; congruence.
Qed.

Lemma mkdir_only_adds (fs fs' : filesystem) (cwd : list string) (path : string) :
  fsys.mkdir fs cwd path = Ok fs' -> only_adds_dirs fs fs'.
Proof.
  unfold fsys.mkdir. destruct (negb (Py.truthy path)); [discriminate|].
  destruct (fsys.drop_empty _) as [|last rinit]; [discriminate|].
  destruct (fsys.walk fs _ _) as [ploc|]; simpl; [|discriminate].
  destruct (fsys.node_at fs ploc) as [[|]|]; try discriminate.
  destruct (_ || _); [discriminate|].
  destruct (fs !! (ploc ++ [last])) eqn:Hnew; [discriminate|].
  intros [= <-] loc. destruct (decide (loc = ploc ++ [last])) as [->|Hne].
  - right. now rewrite lookup_insert_eq.
  - left. now rewrite lookup_insert_ne.
Qed.

Lemma leaf_only_adds (fs fs' : filesystem) (cwd : list string) (name : string)
    (r : result unit) :
  fsys.makedirs_leaf fs cwd name = (r, fs') -> only_adds_dirs fs fs'.
Proof.
  unfold fsys.makedirs_leaf.
  destruct (fsys.mkdir fs cwd name) as [fs1|e] eqn:Hm.
  - intros [= _ <-]. now apply mkdir_only_adds in Hm.
  - destruct (isinstance e OSError); [destruct (negb _)|];
      intros [= _ <-]; apply only_adds_dirs_refl.
Qed.

(** [makedirs] keeps what is there and adds directories only, whether
    it returns or raises. *)
Lemma makedirs_only_adds (fs : filesystem) (cwd : list string) (name : string) :
  only_adds_dirs fs (snd (fsys.makedirs fs cwd name)).
Proof.
  apply (fsys.makedirs_elim (fun fs cwd name res => only_adds_dirs fs (snd res))); clear.
  - intros fs cwd name _ IH _. cbv zeta in *.
    destruct (fsys.makedirs fs cwd (fst (fsys.makedirs_parts name))) as [[u|e] fs1].
    + simpl in IH. destruct (String.eqb _ "."); [exact IH|].
      destruct (fsys.makedirs_leaf fs1 cwd name) as [r fs2] eqn:Hl.
      apply leaf_only_adds in Hl. simpl. now apply only_adds_dirs_trans with fs1.
    + simpl in IH. destruct (isinstance e FileExistsError); [|exact IH].
      destruct (String.eqb _ "."); [exact IH|].
      destruct (fsys.makedirs_leaf fs1 cwd name) as [r fs2] eqn:Hl.
      apply leaf_only_adds in Hl. simpl. now apply only_adds_dirs_trans with fs1.
  - intros fs cwd name _ _.
    destruct (fsys.makedirs_leaf fs cwd name) as [r fs2] eqn:Hl.
    now apply leaf_only_adds in Hl.
Qed.



Lemma ensure_dirs_only_adds (cfg : Config) (fs : filesystem) (cwd : list string) :
  only_adds_dirs fs (snd (ensure_dirs cfg fs cwd)).
Proof.
  unfold ensure_dirs.
  pose proof (makedirs_only_adds fs cwd (UPLOAD_DIR cfg)) as H1.
  destruct (fsys.makedirs fs cwd (UPLOAD_DIR cfg)) as [[u|e] fs1]; simpl in *; [|exact H1].
  apply only_adds_dirs_trans with fs1; [exact H1 | apply makedirs_only_adds].
Qed.

Lemma create_app_fs (env : environ) (cwd : list string) (root : string) (fs : filesystem) :
  snd (create_app env cwd root fs) = snd (ensure_dirs (app_config env cwd) fs cwd).
Proof.
  unfold create_app.
  destruct (ensure_dirs (app_config env cwd) fs cwd) as [[u|e] fs1]; [|reflexivity].
  now destruct (_init_db env) as [[c d]|e].
Qed.

End StartupMore.

(** X1 ([create_app], the two [os.makedirs] calls): start-up never
    removes or changes an entry of the file system, and whatever it adds
    is a directory, whether [create_app] returns or raises; so every path
    that named a file or a directory before still names the same one
    afterwards. *)
Theorem create_app_only_adds_directories (env : environ) (cwd : list string) (root : string)
    (fs : filesystem) :
  let fs' := snd (create_app env cwd root fs) in
  only_adds_dirs fs fs'
  /\ (forall path n, fsys.stat fs cwd path = Ok n -> fsys.stat fs' cwd path = Ok n).
Proof.
  cbv zeta. rewrite StartupMore.create_app_fs.
  pose proof (StartupMore.ensure_dirs_only_adds (app_config env cwd) fs cwd) as H.
  split; [exact H|].
  intros path n. apply FsFacts.stat_weaken. now apply StartupMore.only_adds_dirs_subseteq.
Qed.




(** ** More about the file routes *)

Module RoutesMore.

Import PyFacts PathFacts Serving Spa.

(** *** The normal form of a relative path is its own normal form *)

Lemma loop_dots (k j : nat) (rest : list string) :
  posixpath.normpath_loop 0 (repeat ".." j) (repeat ".." k ++ rest)
  = posixpath.normpath_loop 0 (repeat ".." (k + j)) rest.
Proof.
  revert j. induction k as [|k IH]; intros j; [reflexivity|].
  change (repeat ".." (S k) ++ rest) with (".." :: (repeat ".." k ++ rest)).
  cbn [posixpath.normpath_loop].
  change (String.eqb ".." "" || String.eqb ".." ".") with false. cbv iota.
  change (String.eqb ".." "..") with true. cbn [negb orb].
  assert (Hpush : (0 =? 0)%nat && match repeat ".." j with [] => true | _ => false end
                  || match repeat ".." j with last :: _ => String.eqb last ".." | [] => false end
                  = true) by now destruct j.
  rewrite Hpush. change (".." :: repeat ".." j) with (repeat ".." (S j)).
  rewrite IH. f_equal. f_equal. lia.
Qed.

Lemma loop_normal (k : nat) (names : list string) :
  Forall plain names ->
  posixpath.normpath_loop 0 [] (repeat ".." k ++ names) = rev (repeat ".." k ++ names).
Proof.
  intros Hall. change (@nil string) with (repeat ".." 0) at 1.
  rewrite (loop_dots k 0 names), Nat.add_0_r, (loop_plain _ _ Hall).
  now rewrite rev_app_distr, FsFacts.rev_repeat_same.
Qed.

Lemma dots_no_slash (k : nat) :
  Forall (fun c => Py.contains "/" c = false) (repeat ".." k).
Proof. induction k; constructor; [reflexivity | assumption]. Qed.

Lemma normpath_idempotent_relative (path : string) :
  path <> EmptyString -> Py.startswith "/" path = false ->
  posixpath.normpath path <> EmptyString
  /\ Py.startswith "/" (posixpath.normpath path) = false
  /\ posixpath.normpath (posixpath.normpath path) = posixpath.normpath path.
Proof.
  intros Hne Hrel. rewrite (normpath_relative path Hne Hrel). cbv zeta.
  pose proof (loop_keeps_stack_ok (Py.split "/" path) [] (split_pieces "/" path) (ok_dots 0))
    as Hok.
  apply stack_ok_split in Hok as (k & names & -> & Hall).
  set (l := repeat ".." k ++ names).
  assert (Hl : l = [] \/ (l <> [] /\ Py.truthy (Py.join "/" l) = true
                          /\ Py.startswith "/" (Py.join "/" l) = false)).
  { subst l. destruct k as [|k].
    - destruct names as [|c names]; [now left|]. right.
      inversion Hall as [|? ? Hc _]; subst. simpl app.
      split; [discriminate|]. split; [now apply join_plain_truthy|].
      now apply join_plain_relative.
    - right. simpl repeat. simpl app. split; [discriminate|].
      split; [apply join_dotdot_truthy|]. now destruct (repeat ".." k ++ names). }
  destruct Hl as [-> | (Hnil & Htr & Hstart)].
  - simpl. repeat split. discriminate.
  - rewrite Htr. split; [now apply truthy_true|]. split; [assumption|].
    rewrite normpath_relative; [|now apply truthy_true | assumption]. cbv zeta.
    rewrite split_join; [|assumption|].
    + subst l. rewrite (loop_normal k names Hall), rev_involutive. now rewrite Htr.
    + subst l. apply Forall_app. split; [apply dots_no_slash | now apply plain_no_slash].
Qed.

Lemma safe_join_normal_form (d f : string) :
  f <> EmptyString -> Py.startswith "/" f = false ->
  werkzeug.safe_join d (posixpath.normpath f) = werkzeug.safe_join d f.
Proof.
  intros Hne Hrel.
  destruct (normpath_idempotent_relative f Hne Hrel) as (Hq & _ & Hidem).
  unfold werkzeug.safe_join.
  apply String.eqb_neq in Hne, Hq. rewrite Hne, Hq. simpl negb. cbv iota.
  now rewrite Hidem.
Qed.

End RoutesMore.

(** X3 ([serve_upload], [serve_cert] and the normal form of the
    name): for a name as the [path] converter delivers it, the normal
    form of the name is its own normal form, and a request for the normal
    form of a name gets the answer the request for the name gets: the
    upload and certificate routes do not tell [a/../b.png] or [./b.png]
    from [b.png]. *)
Theorem file_routes_serve_normal_form (app : App) (fs : filesystem) (cwd : list string)
    (name : string) :
  path_converter name = true ->
  posixpath.normpath (posixpath.normpath name) = posixpath.normpath name
  /\ serve_upload app fs cwd (posixpath.normpath name) = serve_upload app fs cwd name
  /\ serve_cert app fs cwd (posixpath.normpath name) = serve_cert app fs cwd name.
Proof.
  intros Hconv. apply SpaFacts.path_converter_relative in Hconv as [Hne Hrel].
  split; [now apply RoutesMore.normpath_idempotent_relative|].
  unfold serve_upload, serve_cert, werkzeug.send_from_directory.
  now rewrite !(RoutesMore.safe_join_normal_form _ name Hne Hrel).
Qed.

Lemma file_routes_serve_normal_form_witness :
  serve_upload example_app example_fs example_cwd (posixpath.normpath "x/../a.png")
  = serve_upload example_app example_fs example_cwd "x/../a.png".
Proof.
  exact (proj1 (proj2 (file_routes_serve_normal_form example_app example_fs example_cwd
                         "x/../a.png" eq_refl))).
Defined.

Module LocationFacts.

Import PyFacts PathFacts Serving MakedirsFacts.

Lemma join_app (a b : list string) :
  a <> [] -> b <> [] -> Py.join "/" (a ++ b) = Py.join "/" a +:+ "/" +:+ Py.join "/" b.
Proof.
  intros Ha Hb. induction a as [|x a IH]; [contradiction|].
  destruct a as [|y a].
  - destruct b as [|z b]; [contradiction|]. apply (join_cons "/" x z b).
  - change ((x :: y :: a) ++ b) with (x :: y :: (a ++ b)).
    rewrite (join_cons "/" x y (a ++ b)), (join_cons "/" x y a).
    change (y :: a ++ b) with ((y :: a) ++ b). rewrite IH by discriminate.
    now rewrite !append_assoc.
Qed.

(** Joining a relative path of plain names to a path of plain names. *)
Lemma join2_chain (absolute : bool) (a b : list string) :
  Forall plain a -> b <> [] -> Forall plain b -> (absolute = true \/ a <> []) ->
  posixpath.join2 (chain_path absolute a) (chain_path false b) = chain_path absolute (a ++ b).
Proof.
  intros Ha Hb Hbp Hroot.
  destruct (join_plain_facts b Hb Hbp) as (_ & Hrel & _).
  change (chain_path false b) with (Py.join "/" b).
  rewrite (join2_relative _ _ Hrel).
  destruct a as [|x a].
  - destruct Hroot as [-> | Hne]; [reflexivity | contradiction].
  - rewrite (chain_path_truthy absolute (x :: a)), (chain_path_endswith absolute (x :: a));
      try assumption; try discriminate.
    cbn [negb orb]. unfold chain_path.
    rewrite (join_app (x :: a) b) by (assumption || discriminate).
    now rewrite !append_assoc.
Qed.

Lemma stat_chain (fs : filesystem) (cwd : list string) (l : list string) :
  l <> [] -> Forall plain l ->
  fsys.stat fs cwd (chain_path true l) =
    do loc <- fsys.walk fs [] l;
    match fsys.node_at fs loc with
    | Some n => Ok n
    | None => Raise fsys.ENOENT
    end.
Proof.
  intros Hl Hp. unfold fsys.stat.
  rewrite (chain_path_truthy true l Hl Hp), (chain_path_start true l Hl Hp cwd).
  cbn [negb]. cbv iota. now rewrite (chain_path_walk true l Hl Hp fs cwd).
Qed.

Lemma send_from_directory_chain (fs : filesystem) (cwd : list string)
    (rootloc ds names : list string) :
  Forall plain rootloc -> ds <> [] -> Forall plain ds -> names <> [] -> Forall plain names ->
  werkzeug.send_from_directory fs cwd (chain_path true rootloc) (chain_path false ds)
    (Py.join "/" names) false
  = file_at fs (rootloc ++ ds ++ names).
Proof.
  intros Hroot Hds Hdsp Hnames Hnp.
  unfold werkzeug.send_from_directory. rewrite (safe_join_plain _ names Hnames Hnp).
  rewrite (chain_path_truthy false ds Hds Hdsp). cbn [negb]. cbv iota.
  change (Py.join "/" names) with (chain_path false names).
  rewrite (join2_chain false ds names) by (auto).
  rewrite join_one.
  assert (Hall : Forall plain (ds ++ names)) by (apply Forall_app; now split).
  assert (Hne : ds ++ names <> []) by now destruct ds.
  rewrite (join2_chain true rootloc (ds ++ names)) by auto.
  rewrite stat_chain; [|now destruct rootloc | apply Forall_app; now split].
  unfold file_at.
  destruct (fsys.walk fs [] (rootloc ++ ds ++ names)) as [loc|]; simpl; [|reflexivity].
  now destruct (fsys.node_at fs loc) as [[|]|].
Qed.

End LocationFacts.

(** X4 ([serve_upload], [serve_cert] and where they look): with
    [app.root_path] the absolute path of the location [rootloc] and a
    relative directory setting made of the plain names [ds], the route
    answers a request for the plain names [names] with the regular file
    at the location [rootloc ++ ds ++ names], or with 404 when there is
    none.  The directory is looked up under [app.root_path], not under
    the working directory of the process, in which [os.makedirs] made it
    at start-up. *)
Theorem upload_and_cert_served_from_root_path (app : App) (fs : filesystem)
    (cwd : list string) (rootloc ds names : list string) :
  root_path app = chain_path true rootloc ->
  Forall plain rootloc -> ds <> [] -> Forall plain ds -> names <> [] -> Forall plain names ->
  (UPLOAD_DIR (config app) = chain_path false ds ->
   serve_upload app fs cwd (Py.join "/" names) = file_at fs (rootloc ++ ds ++ names))
  /\ (CERT_DIR (config app) = chain_path false ds ->
      serve_cert app fs cwd (Py.join "/" names) = file_at fs (rootloc ++ ds ++ names)).
Proof.
  intros Hroot Hrp Hds Hdsp Hnames Hnp. unfold serve_upload, serve_cert. rewrite Hroot.
  split; intros ->; now apply LocationFacts.send_from_directory_chain.
Qed.

Lemma upload_and_cert_served_from_root_path_witness :
  serve_upload example_app example_fs ["tmp"] "a.png"
  = FileResponse "/srv/app/uploads/a.png" "PNG" false.
Proof.
  refine (proj1 (upload_and_cert_served_from_root_path example_app example_fs ["tmp"]
                   ["srv"; "app"] ["uploads"] ["a.png"] eq_refl _ _ _ _ _) eq_refl);
    try discriminate; repeat constructor; discriminate.
Defined.

(** ** More about the settings *)

Module SettingsMore.

Import PyFacts PathFacts.

(** *** [lower] *)

Lemma lower_ascii_letter (x : ascii) :
  (Py.lower_ascii x = "t"%char -> x = "t"%char \/ x = "T"%char)
  /\ (Py.lower_ascii x = "r"%char -> x = "r"%char \/ x = "R"%char)
  /\ (Py.lower_ascii x = "u"%char -> x = "u"%char \/ x = "U"%char)
  /\ (Py.lower_ascii x = "e"%char -> x = "e"%char \/ x = "E"%char).
Proof.
  destruct x as [[] [] [] [] [] [] [] []]; vm_compute;
    repeat split; intros H; solve [discriminate H | now left | now right].
Qed.

End SettingsMore.

(** X5 (the [__main__] block, the [debug] argument): the debug flag is
    on exactly when [FLASK_DEBUG] is set to the word [true] in any mix of
    upper and lower case; it is off when the variable is not set and for
    every other text ([1], [yes], [on], the word with a blank after it). *)
Theorem run_debug_on_exactly_for_true (env : environ) :
  run_debug env = true <->
  exists a b c d : ascii,
    env !! "FLASK_DEBUG" = Some (String a (String b (String c (String d EmptyString))))
    /\ (a = "t"%char \/ a = "T"%char) /\ (b = "r"%char \/ b = "R"%char)
    /\ (c = "u"%char \/ c = "U"%char) /\ (d = "e"%char \/ d = "E"%char).
Proof.
  unfold run_debug, debug_of_text, os.getenv_default. split.
  - destruct (env !! "FLASK_DEBUG") as [v|]; [|discriminate].
    intros H. apply String.eqb_eq in H.
    destruct v as [|a [|b [|c [|d [|x v]]]]]; try discriminate H.
    simpl in H. injection H as Ha Hb Hc Hd.
    exists a, b, c, d. split; [reflexivity|].
    repeat split.
    + now apply (SettingsMore.lower_ascii_letter a).
    + now apply (SettingsMore.lower_ascii_letter b).
    + now apply (SettingsMore.lower_ascii_letter c).
    + now apply (SettingsMore.lower_ascii_letter d).
  - intros (a & b & c & d & -> & Ha & Hb & Hc & Hd).
    destruct Ha as [-> | ->], Hb as [-> | ->], Hc as [-> | ->], Hd as [-> | ->]; reflexivity.
Qed.

(** X6 ([create_app], the [origins] argument of [CORS]): every
    non-empty list of origins that hold no comma, other than the
    one-element list [["*"]], is obtained by setting [CORS_ORIGINS] to
    the origins joined by commas; the text [*] alone always stands for
    every origin. *)
Theorem origins_as_configured (env : environ) (l : list string) :
  l <> [] -> Forall (fun origin => Py.contains "," origin = false) l -> l <> ["*"] ->
  cors_origins (<["CORS_ORIGINS" := Py.join "," l]> env) = OriginList l
  /\ cors_origins (<["CORS_ORIGINS" := Py.join "," ["*"]]> env) = AllOrigins.
Proof.
  intros Hne Hall Hstar. unfold cors_origins, os.getenv_default.
  rewrite !lookup_insert_eq. split; [|reflexivity].
  pose proof (PathFacts.split_join "," l Hne Hall) as Hsplit.
  unfold origins_of. destruct (String.eqb_spec (Py.join "," l) "*") as [Heq|_]; simpl.
  - exfalso. apply Hstar. rewrite <- Hsplit. change (String "," "") with "," . now rewrite Heq.
  - f_equal. exact Hsplit.
Qed.

Lemma origins_as_configured_witness :
  cors_origins (<["CORS_ORIGINS" := Py.join "," ["https://a.com"; "*"]]> ∅)
  = OriginList ["https://a.com"; "*"].
Proof.
  refine (proj1 (origins_as_configured ∅ ["https://a.com"; "*"] _ _ _)).
  - discriminate.
  - repeat constructor.
  - discriminate.
Defined.

(** ** More about the URL map *)

Module RoutingMore.

Import Routing.



End RoutingMore.




